(** * prefect.core.task: Task, Parameter and SignatureValidator

    A shallow embedding of [src/prefect/core/task.py] and the properties of
    its task declaration contract, its dependency binding and its Parameter
    tasks.

    Python objects carry their instance dictionary as a finite map from
    attribute names to values; exceptions are explicit results; the state a
    method mutates (the object under construction, the emitted warnings,
    the flows) is threaded through a small state-and-exception monad. *)

From stdpp Require Import base option list strings gmap.
From Stdlib Require Import ZArith Lia Ascii.

Local Open Scope string_scope.

(** ** Python values *)

(** The built-in callables the module refers to by qualified name, and
    callables supplied by the user: functions, which are true, and
    callable objects whose class makes them false ([__bool__] or
    [__len__]). *)
Inductive callable : Type :=
  | all_successful                 (* prefect.triggers.all_successful *)
  | never_use                      (* prefect.engine.cache_validators.never_use *)
  | duration_only                  (* prefect.engine.cache_validators.duration_only *)
  | UserCallable (qualname : string)
  | FalsyCallable (qualname : string).

#[global] Instance callable_eq_dec : EqDecision callable.
Proof. solve_decision. Defined.

(** The values that flow through the module.  A [datetime.timedelta] is its
    length in microseconds; a task is referred to by its identity. *)
#[warnings="-register-all"]
Inductive pyval : Type :=
  | VNone
  | VBool (b : bool)
  | VInt (z : Z)
  | VStr (s : string)
  | VTimedelta (microseconds : Z)
  | VSet (s : gset string)
  | VCallable (f : callable)
  | VTask (oid : nat)
  | VTuple (items : list pyval)
  | VDict (items : list (string * pyval)).

Fixpoint pyval_eq_dec (a b : pyval) {struct a} : {a = b} + {a <> b}.
Proof.
  refine (
    match a, b with
    | VNone, VNone => left eq_refl
    | VBool x, VBool y => cast_if (decide (x = y))
    | VInt x, VInt y => cast_if (decide (x = y))
    | VStr x, VStr y => cast_if (decide (x = y))
    | VTimedelta x, VTimedelta y => cast_if (decide (x = y))
    | VSet x, VSet y => cast_if (decide (x = y))
    | VCallable x, VCallable y => cast_if (decide (x = y))
    | VTask x, VTask y => cast_if (decide (x = y))
    | VTuple x, VTuple y =>
        cast_if ((fix go (l m : list pyval) {struct l} : {l = m} + {l <> m} :=
                    match l, m with
                    | [], [] => left eq_refl
                    | u :: l', v :: m' =>
                        cast_if_and (pyval_eq_dec u v) (go l' m')
                    | _, _ => right _
                    end) x y)
    | VDict x, VDict y =>
        cast_if ((fix go (l m : list (string * pyval)) {struct l}
                    : {l = m} + {l <> m} :=
                    match l, m with
                    | [], [] => left eq_refl
                    | (j, u) :: l', (k, v) :: m' =>
                        cast_if_and3 (decide (j = k)) (pyval_eq_dec u v) (go l' m')
                    | _, _ => right _
                    end) x y)
    | _, _ => right _
    end); clear pyval_eq_dec; try clear go; congruence.
Defined.

#[global] Instance pyval_eq_decision : EqDecision pyval := pyval_eq_dec.

(** Truth value of a callable. *)
Definition callable_truthy (f : callable) : bool :=
  match f with
  | FalsyCallable _ => false
  | _ => true
  end.

(** Truth value of a Python object ([bool(v)]). *)
Definition truthy (v : pyval) : bool :=
  match v with
  | VNone => false
  | VBool b => b
  | VInt z => negb (z =? 0)%Z
  | VStr s => negb (bool_decide (s = EmptyString))
  | VTimedelta us => negb (us =? 0)%Z
  | VSet s => negb (bool_decide (s = ∅))
  | VCallable f => callable_truthy f
  | VTask _ => true
  | VTuple l => negb (bool_decide (l = []))
  | VDict l => negb (bool_decide (l = []))
  end.

(** [a or b] *)
Definition py_or (a b : pyval) : pyval := if truthy a then a else b.

(** ** Exceptions and results *)

Inductive exn : Type :=
  | TypeError (msg : string)
  | ValueError (msg : string)
  | AttributeError (msg : string)
  | FAIL (msg : string).          (* prefect.engine.signals.FAIL *)

#[global] Instance exn_eq_dec : EqDecision exn.
Proof. solve_decision. Defined.

Inductive result (A : Type) : Type :=
  | Return (a : A)
  | Raise (e : exn).
Arguments Return {A} a.
Arguments Raise {A} e.

Definition rbind {A B} (r : result A) (k : A -> result B) : result B :=
  match r with
  | Return a => k a
  | Raise e => Raise e
  end.

(** Computations over a mutable state [S] that may raise. *)
Definition M (S A : Type) : Type := S -> result A * S.

Definition ret {S A} (a : A) : M S A := fun s => (Return a, s).
Definition raise {S A} (e : exn) : M S A := fun s => (Raise e, s).
Definition bind {S A B} (c : M S A) (k : A -> M S B) : M S B :=
  fun s => match c s with
           | (Return a, s') => k a s'
           | (Raise e, s') => (Raise e, s')
           end.
Definition get {S} : M S S := fun s => (Return s, s).
Definition put {S} (s : S) : M S unit := fun _ => (Return tt, s).
Definition lift {S A} (r : result A) : M S A := fun s => (r, s).

Declare Scope py_scope.
Delimit Scope py_scope with py.
Notation "x <~ c ;; k" := (bind c (fun x => k))
  (at level 100, c at next level, right associativity) : py_scope.
Notation "c ;;; k" := (bind c (fun _ => k))
  (at level 100, right associativity) : py_scope.
Notation "x <<~ c ;; k" := (rbind c (fun x => k))
  (at level 100, c at next level, right associativity) : py_scope.

(** ** Dictionaries

    A [dict] keeps its insertion order, so it is an association list with
    at most one entry per key. *)
Section dict.
Context {K V : Type} `{EqDecision K}.

Fixpoint dict_get (d : list (K * V)) (k : K) : option V :=
  match d with
  | [] => None
  | (k', v) :: d' => if decide (k' = k) then Some v else dict_get d' k
  end.

Definition dict_contains (d : list (K * V)) (k : K) : bool :=
  bool_decide (is_Some (dict_get d k)).

(** [d[k] = v]: overwrite in place, or append. *)
Fixpoint dict_set (d : list (K * V)) (k : K) (v : V) : list (K * V) :=
  match d with
  | [] => [(k, v)]
  | (k', v') :: d' =>
      if decide (k' = k) then (k, v) :: d' else (k', v') :: dict_set d' k v
  end.

Fixpoint dict_del (d : list (K * V)) (k : K) : list (K * V) :=
  match d with
  | [] => []
  | (k', v') :: d' =>
      if decide (k' = k) then d' else (k', v') :: dict_del d' k
  end.

(** [d.pop(k, default)]: the value and the dictionary left. *)
Definition dict_pop (d : list (K * V)) (k : K) (default : V)
  : V * list (K * V) :=
  match dict_get d k with
  | Some v => (v, dict_del d k)
  | None => (default, d)
  end.

Definition dict_keys (d : list (K * V)) : list K := d.*1.
End dict.

(** ** The [inspect] module

    [inspect.Parameter], [inspect.signature], [Signature.bind] and
    [inspect.getfullargspec] belong to the Python standard library; they
    are modelled after CPython's [Lib/inspect.py] (versions 3.8 to
    3.12). *)

Inductive ParameterKind : Type :=
  | POSITIONAL_ONLY
  | POSITIONAL_OR_KEYWORD
  | VAR_POSITIONAL
  | KEYWORD_ONLY
  | VAR_KEYWORD.

#[global] Instance ParameterKind_eq_dec : EqDecision ParameterKind.
Proof. solve_decision. Defined.

(** A declared parameter: its name, its kind, and whether it has a default
    ([default is not Parameter.empty]). *)
Record InspectParameter : Type := mkParameter {
  p_name : string;
  p_kind : ParameterKind;
  p_has_default : bool;
}.

#[global] Instance InspectParameter_eq_dec : EqDecision InspectParameter.
Proof. solve_decision. Defined.

(** The parameters of a signature, in declaration order. *)
Definition Signature : Type := list InspectParameter.

Definition quoted (name : string) : string := "'" +:+ name +:+ "'".

(** First loop of [Signature._bind]: positional arguments are matched with
    the parameters in order.  The result is the parameters left for the
    keyword phase ([parameters_ex] chained with the rest of the iterator)
    and the arguments bound so far. *)
Fixpoint bind_positional (parameters : list InspectParameter) (args : list pyval)
    (kwargs arguments : list (string * pyval))
  : result (list InspectParameter * list (string * pyval)) :=
  match args with
  | [] =>
      match parameters with
      | [] => Return ([], arguments)
      | param :: rest =>
          if decide (p_kind param = VAR_POSITIONAL) then Return (rest, arguments)
          else if dict_contains kwargs (p_name param) then
            if decide (p_kind param = POSITIONAL_ONLY) then
              Raise (TypeError (quoted (p_name param) +:+
                " parameter is positional only, but was passed as a keyword"))
            else Return (param :: rest, arguments)
          else if bool_decide (p_kind param = VAR_KEYWORD) || p_has_default param
          then Return (param :: rest, arguments)
          else Raise (TypeError
                 ("missing a required argument: " +:+ quoted (p_name param)))
      end
  | arg_val :: args' =>
      match parameters with
      | [] => Raise (TypeError "too many positional arguments")
      | param :: rest =>
          if bool_decide (p_kind param = VAR_KEYWORD)
             || bool_decide (p_kind param = KEYWORD_ONLY)
          then Raise (TypeError "too many positional arguments")
          else if decide (p_kind param = VAR_POSITIONAL) then
            Return (rest, dict_set arguments (p_name param) (VTuple (arg_val :: args')))
          else if dict_contains kwargs (p_name param)
                  && negb (bool_decide (p_kind param = POSITIONAL_ONLY)) then
            Raise (TypeError
              ("multiple values for argument " +:+ quoted (p_name param)))
          else
            bind_positional rest args' kwargs
              (dict_set arguments (p_name param) arg_val)
      end
  end.

(** Second loop of [Signature._bind]: the remaining parameters take their
    values from [kwargs]; [kwargs_param] remembers a variable-keyword parameter. *)
Fixpoint bind_keywords (parameters : list InspectParameter)
    (kwargs arguments : list (string * pyval)) (kwargs_param : option InspectParameter)
  : result (list (string * pyval) * list (string * pyval) * option InspectParameter) :=
  match parameters with
  | [] => Return (kwargs, arguments, kwargs_param)
  | param :: rest =>
      if decide (p_kind param = VAR_KEYWORD) then
        bind_keywords rest kwargs arguments (Some param)
      else if decide (p_kind param = VAR_POSITIONAL) then
        bind_keywords rest kwargs arguments kwargs_param
      else
        match dict_get kwargs (p_name param) with
        | None =>
            if negb (p_has_default param) then
              Raise (TypeError
                ("missing a required argument: " +:+ quoted (p_name param)))
            else bind_keywords rest kwargs arguments kwargs_param
        | Some arg_val =>
            if decide (p_kind param = POSITIONAL_ONLY) then
              Raise (TypeError (quoted (p_name param) +:+
                " parameter is positional only, but was passed as a keyword"))
            else
              bind_keywords rest (dict_del kwargs (p_name param))
                (dict_set arguments (p_name param) arg_val) kwargs_param
        end
  end.

(** [signature.bind].arguments for the given positional and keyword
    arguments: the ordered mapping from
    parameter names to the values bound to them.  Extra keywords are
    compressed into one dictionary under the name of the variable-keyword parameter. *)
Definition Signature_bind (signature : Signature) (args : list pyval)
    (kwargs : list (string * pyval)) : result (list (string * pyval)) :=
  match bind_positional signature args kwargs [] with
  | Raise e => Raise e
  | Return (parameters, arguments) =>
      match bind_keywords parameters kwargs arguments None with
      | Raise e => Raise e
      | Return (kwargs', arguments', kwargs_param) =>
          match kwargs' with
          | [] => Return arguments'
          | (k, _) :: _ =>
              match kwargs_param with
              | Some param =>
                  Return (dict_set arguments' (p_name param) (VDict kwargs'))
              | None =>
                  Raise (TypeError
                    ("got an unexpected keyword argument " +:+ quoted k))
              end
          end
      end
  end.


(** ** Classes, instances and the ambient context *)

(** The task classes: [Task], [Parameter], and user subclasses, which may
    override [run].  A subclass carries the signature that
    [inspect.signature] reports for the bound method [self.run]: the
    declared parameters after [self]. *)
Inductive pyclass : Type :=
  | Task_cls
  | Parameter_cls
  | Subclass (name : string) (base : pyclass) (run : option Signature).

(** [type(self).__name__] *)
Definition class_name (c : pyclass) : string :=
  match c with
  | Task_cls => "Task"
  | Parameter_cls => "Parameter"
  | Subclass name _ _ => name
  end.

(** Whether the class is [Parameter] or derives from it, and so has the
    [name] and [slug] properties. *)
Fixpoint is_Parameter (c : pyclass) : bool :=
  match c with
  | Task_cls => false
  | Parameter_cls => true
  | Subclass _ base _ => is_Parameter base
  end.

(** [inspect.signature(self.run)]: [Task.run(self)] and
    [Parameter.run(self)] take no argument. *)
Fixpoint run_signature (c : pyclass) : Signature :=
  match c with
  | Task_cls => []
  | Parameter_cls => []
  | Subclass _ _ (Some signature) => signature
  | Subclass _ base None => run_signature base
  end.

(** An instance: its identity, its class and its instance dictionary.  The
    entry [_name], which only the [Parameter.name] property reads and
    writes, holds a [str] and is kept apart with that type. *)
Record object : Type := mkObject {
  oid : nat;
  cls : pyclass;
  _name : option string;
  attrs : gmap string pyval;
}.

(** [object.__new__(cls)] *)
Definition new_object (id : nat) (c : pyclass) : object :=
  {| oid := id; cls := c; _name := None; attrs := ∅ |}.

(** [prefect.context]: the keys this module reads; [None] is an absent key. *)
Record Context : Type := mkContext {
  _flow : option nat;
  _group : option string;
  _tags : option (list string);
  _parameters : option (gmap string pyval);
}.

Definition empty_context : Context :=
  {| _flow := None; _group := None; _tags := None; _parameters := None |}.

(** ** Flows *)

Record Edge : Type := mkEdge {
  upstream_task : nat;
  downstream_task : nat;
  key : option string;
}.

#[global] Instance Edge_eq_dec : EqDecision Edge.
Proof. solve_decision. Defined.

Record Flow : Type := mkFlow { edges : list Edge }.

(** A key handed to a dictionary lookup: a [str], an [inspect.Parameter]
    object, or [None].  Objects of different types are different keys:
    [Parameter.__eq__] answers [NotImplemented] for anything that is not a
    [Parameter], and so does [str.__eq__] for anything that is not a
    [str]. *)
Inductive pykey : Type :=
  | KStr (s : string)
  | KParameter (p : InspectParameter)
  | KNone.

#[global] Instance pykey_eq_dec : EqDecision pykey.
Proof. solve_decision. Defined.

(** The unkeyed edges into [task] from the tasks among [upstream_tasks]. *)
Definition upstream_edges (task : nat) (upstream_tasks : list pyval) : list Edge :=
  omap (fun v => match v with
                 | VTask t => Some (mkEdge t task None)
                 | _ => None
                 end) upstream_tasks.

Definition downstream_edges (task : nat) (downstream_tasks : list pyval) : list Edge :=
  omap (fun v => match v with
                 | VTask t => Some (mkEdge task t None)
                 | _ => None
                 end) downstream_tasks.

(** The keyed edges into [task], one for each argument whose value is
    itself a task. *)
Definition keyword_edges (task : nat) (keyword_tasks : list (pykey * pyval))
  : list Edge :=
  omap (fun kv => match kv with
                  | (KStr k, VTask t) => Some (mkEdge t task (Some k))
                  | _ => None
                  end) keyword_tasks.

(** Modelled from the spec: [Flow.set_dependencies] of
    [prefect/core/flow.py], which is not part of this module.  Each
    argument whose value is itself a task adds a keyed edge (upstream that
    task, downstream [task], key the argument's name), other values are
    inert literals; each task listed in [upstream_tasks] adds an unkeyed
    edge, and likewise each task listed in [downstream_tasks]. *)
Definition Flow_set_dependencies (flow : nat) (task : object)
    (upstream_tasks downstream_tasks : option (list pyval))
    (keyword_tasks : option (list (pykey * pyval))) (validate : bool)
  : M (gmap nat Flow) unit :=
  fun flows =>
    (Return tt,
     alter (fun f => {| edges := edges f
                          ++ keyword_edges (oid task) (default [] keyword_tasks)
                          ++ upstream_edges (oid task) (default [] upstream_tasks)
                          ++ downstream_edges (oid task) (default [] downstream_tasks) |})
           flow flows).

(** ** Attribute access *)

(** The state of a constructor call: the instance being initialised and
    the warnings emitted through [warnings.warn]. *)
Record Env : Type := mkEnv {
  self : object;
  warned : list string;
}.

(** [hasattr(self, "_name")] *)
Definition has__name (o : object) : bool := bool_decide (is_Some (_name o)).

(** [self.<attr> = v] for an attribute that is not a property. *)
Definition store (attr : string) (v : pyval) : M Env unit :=
  fun e =>
    let o := self e in
    (Return tt,
     {| self := {| oid := oid o; cls := cls o; _name := _name o;
                   attrs := <[attr := v]> (attrs o) |};
        warned := warned e |}).

(** [self.<attr>] for an attribute that is not a property. *)
Definition load (o : object) (attr : string) : result pyval :=
  match attrs o !! attr with
  | Some v => Return v
  | None =>
      Raise (AttributeError (quoted (class_name (cls o)) +:+
               " object has no attribute " +:+ quoted attr))
  end.

(** [warnings.warn(message)] under the default filters. *)
Definition warn (message : string) : M Env unit :=
  fun e => (Return tt, {| self := self e; warned := warned e ++ [message] |}).

Definition of_str (s : option string) : pyval :=
  match s with Some s => VStr s | None => VNone end.

Definition of_timedelta (d : option Z) : pyval :=
  match d with Some us => VTimedelta us | None => VNone end.

(** [a or b] where [a] is an optional [str]. *)
Definition str_or (a : option string) (b : string) : string :=
  match a with
  | Some s => if decide (s = EmptyString) then b else s
  | None => b
  end.

(** [a or b] where [a] is an optional callable. *)
Definition callable_or (a : option callable) (b : callable) : callable :=
  match a with
  | Some f => if callable_truthy f then f else b
  | None => b
  end.

(** *** The [name] and [slug] properties of [Parameter] *)

(** [Parameter.name] (getter): [return self._name] *)
Definition Parameter_name (o : object) : result string :=
  match _name o with
  | Some s => Return s
  | None =>
      Raise (AttributeError (quoted (class_name (cls o)) +:+
               " object has no attribute '_name'"))
  end.

(** [Parameter.name] (setter) *)
Definition Parameter_name_setter (value : string) : M Env unit :=
  fun e =>
    let o := self e in
    if has__name o then
      (Raise (AttributeError "Parameter name can not be changed"), e)
    else
      (Return tt,
       {| self := {| oid := oid o; cls := cls o; _name := Some value;
                     attrs := attrs o |};
          warned := warned e |}).

(** [Parameter.slug] (getter): [return self.name] *)
Definition Parameter_slug (o : object) : result string := Parameter_name o.

(** [Parameter.slug] (setter): nothing is stored. *)
Definition Parameter_slug_setter (value : option string) : M Env unit :=
  fun e =>
    match Parameter_name (self e) with
    | Raise x => (Raise x, e)
    | Return name =>
        if decide (value <> Some name) then
          (Raise (AttributeError "Parameter slug must be the same as its name."), e)
        else (Return tt, e)
    end.

(** [self.name = value] and [self.slug = value]: through the property
    setter on a [Parameter], into the instance dictionary otherwise. *)
Definition set_name (value : string) : M Env unit :=
  fun e =>
    if is_Parameter (cls (self e)) then Parameter_name_setter value e
    else store "name" (VStr value) e.

Definition set_slug (value : option string) : M Env unit :=
  fun e =>
    if is_Parameter (cls (self e)) then Parameter_slug_setter value e
    else store "slug" (of_str value) e.

(** [self.name] and [self.slug] *)
Definition get_name (o : object) : result pyval :=
  if is_Parameter (cls o) then
    match Parameter_name o with Return s => Return (VStr s) | Raise x => Raise x end
  else load o "name".

Definition get_slug (o : object) : result pyval :=
  if is_Parameter (cls o) then
    match Parameter_slug o with Return s => Return (VStr s) | Raise x => Raise x end
  else load o "slug".

(** ** Task *)

(** The [tags] argument: absent, a single [str], or another iterable of
    strings (a list, a tuple or a set, given by its elements). *)
Inductive tags_arg : Type :=
  | TagsNone
  | TagsStr (s : string)
  | TagsIter (elements : list string).

(** The arguments of [Task.__init__]; durations are in microseconds. *)
Record InitArgs : Type := mkInitArgs {
  name : option string;
  slug : option string;
  description : option string;
  group : option string;
  tags : tags_arg;
  max_retries : Z;
  retry_delay : Z;
  timeout : option Z;
  trigger : option callable;
  skip_on_upstream_skip : bool;
  cache_for : option Z;
  cache_validator : option callable;
}.

(** The defaults of the signature of [Task.__init__]. *)
Definition default_args : InitArgs :=
  {| name := None; slug := None; description := None; group := None;
     tags := TagsNone; max_retries := 0; retry_delay := 60000000;
     timeout := None; trigger := None; skip_on_upstream_skip := true;
     cache_for := None; cache_validator := None |}.

(** The [isinstance(tags, str)] guard: what passes it is [None] or an
    iterable of strings. *)
Definition reject_str (t : tags_arg) : M Env (option (list string)) :=
  match t with
  | TagsStr _ => raise (TypeError "Tags should be a set of tags, not a string.")
  | TagsNone => ret None
  | TagsIter l => ret (Some l)
  end.

(** [tags or prefect.context.get("_tags", [])] *)
Definition tags_or (t : option (list string)) (context_tags : list string)
  : list string :=
  match t with
  | None => context_tags
  | Some [] => context_tags
  | Some l => l
  end.

Definition cache_warning : string :=
  "cache_validator provided without specifying cache expiration (cache_for); this Task will not be cached.".

Local Open Scope py_scope.

(** [Task.__init__] *)
Definition Task___init__ (ctx : Context) (a : InitArgs) : M Env unit :=
  e <~ get ;;
  set_name (str_or (name a) (class_name (cls (self e)))) ;;;
  set_slug (slug a) ;;;
  store "description" (of_str (description a)) ;;;
  store "group" (VStr (str_or (group a) (default EmptyString (_group ctx)))) ;;;
  t <~ reject_str (tags a) ;;
  store "tags" (VSet (list_to_set (tags_or t (default [] (_tags ctx))))) ;;;
  store "max_retries" (VInt (max_retries a)) ;;;
  store "retry_delay" (VTimedelta (retry_delay a)) ;;;
  store "timeout" (of_timedelta (timeout a)) ;;;
  store "trigger" (VCallable (callable_or (trigger a) all_successful)) ;;;
  store "skip_on_upstream_skip" (VBool (skip_on_upstream_skip a)) ;;;
  (match cache_for a, cache_validator a with
   | None, Some _ => warn cache_warning
   | _, _ => ret tt
   end) ;;;
  store "cache_for" (of_timedelta (cache_for a)) ;;;
  let default_validator :=
    match cache_for a with
    | None => never_use
    | Some _ => duration_only
    end in
  store "cache_validator"
    (VCallable (callable_or (cache_validator a) default_validator)).

(** [cls(...)]: a new instance of class [c] with identity [id],
    initialised by [init]. *)
Definition instantiate (id : nat) (c : pyclass) (init : M Env unit)
  : result object * list string :=
  match init {| self := new_object id c; warned := [] |} with
  | (Return _, e) => (Return (self e), warned e)
  | (Raise x, e) => (Raise x, warned e)
  end.

(** [Task.inputs] *)
Definition Task_inputs (o : object) : list string :=
  p_name <$> run_signature (cls o).

(** The key under which [callargs.pop] looks for [var_kw_arg]: the
    [inspect.Parameter] object itself, or [None]. *)
Definition key_of (var_kw_arg : option InspectParameter) : pykey :=
  match var_kw_arg with
  | Some p => KParameter p
  | None => KNone
  end.

(** [dict(arguments)]: the keys are the parameter names. *)
Definition to_dict (arguments : list (string * pyval)) : list (pykey * pyval) :=
  prod_map KStr id <$> arguments.

(** [d.update(other)] for a dictionary [other]. *)
Definition dict_update (d : list (pykey * pyval)) (other : pyval)
  : result (list (pykey * pyval)) :=
  match other with
  | VDict items =>
      Return (foldl (fun d kv => dict_set d (KStr kv.1) kv.2) d items)
  | _ => Raise (TypeError "object is not iterable")
  end.

(** Lines 162-170 of [Task.__call__]: the keyword tasks handed to
    [set_dependencies]. *)
Definition callargs_of (signature : Signature) (args : list pyval)
    (kwargs : list (string * pyval)) : result (list (pykey * pyval)) :=
  match Signature_bind signature args kwargs with
  | Raise x => Raise x
  | Return arguments =>
      let callargs := to_dict arguments in
      let var_kw_arg :=
        List.find (fun p => bool_decide (p_kind p = VAR_KEYWORD)) signature in
      let (popped, callargs) := dict_pop callargs (key_of var_kw_arg) (VDict []) in
      dict_update callargs popped
  end.

(** [Task.set_dependencies] *)
Definition Task_set_dependencies (ctx : Context) (o : object)
    (flow : option nat) (upstream_tasks downstream_tasks : option (list pyval))
    (keyword_tasks : option (list (pykey * pyval))) (validate : bool)
  : M (gmap nat Flow) unit :=
  match (match flow with Some f => Some f | None => _flow ctx end) with
  | None =>
      raise (ValueError
        "No Flow was passed, and could not infer an active Flow context.")
  | Some f =>
      Flow_set_dependencies f o upstream_tasks downstream_tasks
        keyword_tasks validate
  end.

(** [Task.__call__] *)
Definition Task___call__ (ctx : Context) (o : object) (args : list pyval)
    (upstream_tasks : option (list pyval)) (kwargs : list (string * pyval))
  : M (gmap nat Flow) object :=
  callargs <~ lift (callargs_of (run_signature (cls o)) args kwargs) ;;
  match _flow ctx with
  | None => raise (ValueError "Could not infer an active Flow context.")
  | Some flow =>
      Task_set_dependencies ctx o (Some flow) upstream_tasks None
        (Some callargs) true ;;;
      ret o
  end.

(** ** Parameter *)

(** [Parameter.__init__] *)
Definition Parameter___init__ (ctx : Context) (name : string)
    (default : pyval) (required : bool) : M Env unit :=
  let required :=
    match default with
    | VNone => required
    | _ => false
    end in
  store "required" (VBool required) ;;;
  store "default" default ;;;
  Task___init__ ctx
    {| name := Some name; slug := Some name; description := None;
       group := None; tags := TagsNone; max_retries := 0;
       retry_delay := 60000000; timeout := None; trigger := None;
       skip_on_upstream_skip := true; cache_for := None;
       cache_validator := None |}.

Definition dquote : string := String (Ascii.ascii_of_nat 34) EmptyString.

(** ['Parameter "{}" was required but not provided.'.format(name)] *)
Definition required_message (name : string) : string :=
  "Parameter " +:+ dquote +:+ name +:+ dquote +:+
  " was required but not provided.".

(** [Parameter.run] *)
Definition Parameter_run (ctx : Context) (o : object) : result pyval :=
  let params := default ∅ (_parameters ctx) in
  required <<~ load o "required" ;;
  missing <<~ (if truthy required then
                 name <<~ Parameter_name o ;;
                 Return (bool_decide (params !! name = None))
               else Return false) ;;
  if (missing : bool) then
    name <<~ Parameter_name o ;;
    Raise (FAIL (required_message name))
  else
    name <<~ Parameter_name o ;;
    d <<~ load o "default" ;;
    Return (default d (params !! name)).

(** ** SignatureValidator *)

(** The metaclasses: [type], and [SignatureValidator], which derives
    from it. *)
Inductive metaclass : Type :=
  | type_
  | SignatureValidator.

#[global] Instance metaclass_eq_dec : EqDecision metaclass.
Proof. solve_decision. Defined.

(** A class object: its metaclass, its name, its parents and the functions
    defined in its body, each with its declared parameters ([self]
    included).  [object], the last parent of every class, is left
    out. *)
#[warnings="-register-all"]
Inductive class_object : Type :=
  mkClass (meta : metaclass) (name : string) (parents : list class_object)
          (methods : list (string * list InspectParameter)).

Fixpoint class_object_eq_dec (a b : class_object) {struct a}
  : {a = b} + {a <> b}.
Proof.
  refine (
    match a, b with
    | mkClass m n ps ms, mkClass m' n' ps' ms' =>
        cast_if_and4 (decide (m = m')) (decide (n = n'))
          ((fix go (l k : list class_object) {struct l} : {l = k} + {l <> k} :=
              match l, k with
              | [], [] => left eq_refl
              | x :: l', y :: k' =>
                  cast_if_and (class_object_eq_dec x y) (go l' k')
              | _, _ => right _
              end) ps ps')
          (decide (ms = ms'))
    end); clear class_object_eq_dec; try clear go; congruence.
Defined.

#[global] Instance class_object_eq_decision : EqDecision class_object :=
  class_object_eq_dec.






(** *** Method resolution order *)










(** *** Class creation *)






(** ** Calls used in the statements below *)

(** [Task(tags=t)] *)
Definition with_tags (t : tags_arg) : InitArgs :=
  {| name := None; slug := None; description := None; group := None;
     tags := t; max_retries := 0; retry_delay := 60000000;
     timeout := None; trigger := None; skip_on_upstream_skip := true;
     cache_for := None; cache_validator := None |}.

(** [Task(cache_for=d, cache_validator=v)] *)
Definition with_cache (d : option Z) (v : option callable) : InitArgs :=
  {| name := None; slug := None; description := None; group := None;
     tags := TagsNone; max_retries := 0; retry_delay := 60000000;
     timeout := None; trigger := None; skip_on_upstream_skip := true;
     cache_for := d; cache_validator := v |}.

(** A context in which only the ambient tags are set. *)
Definition context_with_tags (t : list string) : Context :=
  {| _flow := None; _group := None; _tags := Some t; _parameters := None |}.

(** A context in which only the parameter mapping is set. *)
Definition context_with_parameters (p : gmap string pyval) : Context :=
  {| _flow := None; _group := None; _tags := None; _parameters := Some p |}.

(** A context in which only the flow is set. *)
Definition context_with_flow (f : nat) : Context :=
  {| _flow := Some f; _group := None; _tags := None; _parameters := None |}.

(** [Parameter("x")] and [Parameter("x", default=5)], constructed with
    identity 0 outside of any context. *)
Definition constructed (r : result object * list string) : object :=
  match r with
  | (Return o, _) => o
  | (Raise _, _) => new_object 0 Task_cls
  end.

Definition parameter_x : object :=
  constructed (instantiate 0 Parameter_cls
                 (Parameter___init__ empty_context "x" VNone true)).

Definition parameter_x_5 : object :=
  constructed (instantiate 0 Parameter_cls
                 (Parameter___init__ empty_context "x" (VInt 5) true)).

(** An assignment statement [p.name = value] or [p.slug = value]. *)
Inductive assignment : Type :=
  | AssignName (value : string)
  | AssignSlug (value : option string).

(** The state after an assignment statement, whether or not it raised. *)
Definition attempt (e : Env) (s : assignment) : Env :=
  match s with
  | AssignName value => (set_name value e).2
  | AssignSlug value => (set_slug value e).2
  end.






(** Mismatches between a call and a signature.  An extra positional
    argument: there is no variable-positional parameter and more
    positional arguments than parameters that take one.  A missing
    required argument: a named parameter without default that the
    positional arguments do not reach and the keywords do not name. *)
Definition accepts_positional (p : InspectParameter) : bool :=
  bool_decide (p_kind p = POSITIONAL_ONLY)
  || bool_decide (p_kind p = POSITIONAL_OR_KEYWORD).

Definition extra_positional (signature : Signature) (args : list pyval) : Prop :=
  Forall (fun p => p_kind p <> VAR_POSITIONAL) signature /\
  length (List.filter accepts_positional signature) < length args.

Definition missing_required (signature : Signature) (args : list pyval)
    (kwargs : list (string * pyval)) : Prop :=
  exists i p,
    signature !! i = Some p /\
    length args <= i /\
    p_has_default p = false /\
    p_kind p <> VAR_POSITIONAL /\
    p_kind p <> VAR_KEYWORD /\
    dict_get kwargs (p_name p) = None.

(** Instances of two task classes: [run(self, x, y)], and
    [run(self, x, **kwargs)]. *)
Definition add_task : object :=
  new_object 1
    (Subclass "AddTask" Task_cls
       (Some [mkParameter "x" POSITIONAL_OR_KEYWORD false;
              mkParameter "y" POSITIONAL_OR_KEYWORD false])).

Definition collect_task : object :=
  new_object 2
    (Subclass "Collect" Task_cls
       (Some [mkParameter "x" POSITIONAL_OR_KEYWORD false;
              mkParameter "kwargs" VAR_KEYWORD false])).

(** The edges that a call commits to a flow. *)
Definition committed (o : object) (callargs : list (pykey * pyval))
    (upstream_tasks : option (list pyval)) (f : Flow) : Flow :=
  {| edges := edges f ++ keyword_edges (oid o) callargs
                ++ upstream_edges (oid o) (default [] upstream_tasks) |}.

(** [Task.serialize].  [to_qualified_name] belongs to
    [prefect.utilities.json], which is not part of this module: it is
    taken as a parameter, here from classes to their qualified names. *)
Definition Task_serialize (to_qualified_name : pyclass -> string) (o : object)
  : result (list (string * pyval)) :=
  (v_name <<~ get_name o ;;
   v_slug <<~ get_slug o ;;
   v_description <<~ load o "description" ;;
   v_group <<~ load o "group" ;;
   v_tags <<~ load o "tags" ;;
   let v_type := VStr (to_qualified_name (cls o)) in
   v_max_retries <<~ load o "max_retries" ;;
   v_retry_delay <<~ load o "retry_delay" ;;
   v_timeout <<~ load o "timeout" ;;
   v_trigger <<~ load o "trigger" ;;
   v_skip_on_upstream_skip <<~ load o "skip_on_upstream_skip" ;;
   v_cache_for <<~ load o "cache_for" ;;
   v_cache_validator <<~ load o "cache_validator" ;;
   Return [("name", v_name); ("slug", v_slug);
           ("description", v_description); ("group", v_group);
           ("tags", v_tags); ("type", v_type);
           ("max_retries", v_max_retries); ("retry_delay", v_retry_delay);
           ("timeout", v_timeout); ("trigger", v_trigger);
           ("skip_on_upstream_skip", v_skip_on_upstream_skip);
           ("cache_for", v_cache_for);
           ("cache_validator", v_cache_validator)])%py.

(** * Properties *)

(** ** Task construction *)

Ltac run_init :=
  unfold Parameter___init__; unfold Task___init__;
  unfold instantiate, bind, get, ret, raise,
    set_name, set_slug, Parameter_name_setter, Parameter_slug_setter,
    Parameter_name, has__name, reject_str, warn, store; simpl.

Section task_init.
Variables (ctx : Context) (a : InitArgs).

(** The tags that [Task.__init__] stores when [tags] is not a [str]. *)
Let kept_tags : gset string :=
  list_to_set
    (tags_or (match tags a with TagsIter l => Some l | _ => None end)
             (default [] (_tags ctx))).

Let kept_validator : callable :=
  callable_or (cache_validator a)
    (match cache_for a with
     | None => never_use
     | Some _ => duration_only
     end).

Let emitted : list string :=
  match cache_for a, cache_validator a with
  | None, Some _ => [cache_warning]
  | _, _ => []
  end.

(** On an instance without the [Parameter] properties, construction
    runs to the end unless [tags] is a [str]. *)
Lemma Task_init_plain (e : Env) :
  is_Parameter (cls (self e)) = false ->
  (forall s, tags a <> TagsStr s) ->
  exists e',
    Task___init__ ctx a e = (Return tt, e') /\
    _name (self e') = _name (self e) /\
    attrs (self e') !! "tags" = Some (VSet kept_tags) /\
    attrs (self e') !! "cache_for" = Some (of_timedelta (cache_for a)) /\
    attrs (self e') !! "cache_validator" = Some (VCallable kept_validator) /\
    warned e' = (warned e ++ emitted)%list.
Proof.
  destruct e as [[id c nm at_] w]. simpl. intros Hcls Htags.
  subst kept_tags kept_validator emitted.
  run_init. repeat (rewrite Hcls; simpl).
  destruct (tags a) as [|s|l] eqn:Ht; [|by destruct (Htags s)|]; simpl;
    destruct (cache_for a), (cache_validator a) as [v|]; simpl;
    try destruct (callable_truthy v);
    (eexists; split; [reflexivity|]); simpl; rewrite ?app_nil_r;
    repeat split; by simplify_map_eq.
Qed.

(** With [tags] a [str], construction stops at the guard: the four
    attributes assigned before it are set, [tags] is not. *)
Lemma Task_init_str (e : Env) (s : string) :
  is_Parameter (cls (self e)) = false ->
  tags a = TagsStr s ->
  exists e',
    Task___init__ ctx a e =
      (Raise (TypeError "Tags should be a set of tags, not a string."), e') /\
    attrs (self e') =
      <["group" := VStr (str_or (group a) (default EmptyString (_group ctx)))]>
        (<["description" := of_str (description a)]>
           (<["slug" := of_str (slug a)]>
              (<["name" := VStr (str_or (name a) (class_name (cls (self e))))]>
                 (attrs (self e))))) /\
    warned e' = warned e.
Proof.
  destruct e as [[id c nm at_] w]. simpl. intros Hcls Ht.
  run_init. repeat (rewrite Hcls; simpl). rewrite Ht. simpl.
  eexists. split; [reflexivity|]. by simpl.
Qed.
End task_init.

(** What [instantiate] returns, from what the constructor does to a new
    instance. *)
Lemma instantiate_Return id c init e' :
  init {| self := new_object id c; warned := [] |} = (Return tt, e') ->
  instantiate id c init = (Return (self e'), warned e').
Proof. unfold instantiate. by intros ->. Qed.

Lemma instantiate_Raise id c init x e' :
  init {| self := new_object id c; warned := [] |} = (Raise x, e') ->
  instantiate id c init = (Raise x, warned e').
Proof. unfold instantiate. by intros ->. Qed.

Lemma instantiate_inv id c init o ws :
  instantiate id c init = (Return o, ws) ->
  exists u, init {| self := new_object id c; warned := [] |}
            = (Return u, {| self := o; warned := ws |}).
Proof.
  unfold instantiate.
  destruct (init _) as [[u|x] [o' ws']]; [|done].
  intros [= <- <-]. by exists u.
Qed.

(** C6: a [tags] argument that is a bare string makes [Task.__init__]
    raise [TypeError] at the guard, with no [tags] attribute assigned and
    nothing assigned after it; a non-empty collection of strings such as
    the set of [a] and [b] is accepted and stored as exactly that set. *)
Theorem tags_str_rejected_collection_stored
    (ctx : Context) (a : InitArgs) (id : nat) (c : pyclass) :
  is_Parameter c = false ->
  (forall s, tags a = TagsStr s ->
     instantiate id c (Task___init__ ctx a) =
       (Raise (TypeError "Tags should be a set of tags, not a string."), []) /\
     exists e',
       Task___init__ ctx a {| self := new_object id c; warned := [] |} =
         (Raise (TypeError "Tags should be a set of tags, not a string."), e') /\
       dom (attrs (self e')) = {["name"; "slug"; "description"; "group"]}) /\
  (forall l, l <> [] -> tags a = TagsIter l ->
     exists o ws,
       instantiate id c (Task___init__ ctx a) = (Return o, ws) /\
       attrs o !! "tags" = Some (VSet (list_to_set l))).
Proof.
  intros Hc. split.
  - intros s Hs.
    destruct (Task_init_str ctx a {| self := new_object id c; warned := [] |} s)
      as (e' & Hrun & Hattrs & Hw); [done..|].
    split.
    + rewrite (instantiate_Raise _ _ _ _ _ Hrun). by rewrite Hw.
    + exists e'. split; [done|]. rewrite Hattrs. simpl.
      rewrite !dom_insert_L, dom_empty_L. set_solver.
  - intros l Hl Ht.
    destruct (Task_init_plain ctx a {| self := new_object id c; warned := [] |})
      as (e' & Hrun & _ & Htags & _); [done|by rewrite Ht|].
    exists (self e'), (warned e'). split.
    + by apply instantiate_Return.
    + rewrite Htags, Ht. by destruct l.
Qed.

Lemma tags_str_rejected_collection_stored_witness :
  instantiate 0 Task_cls (Task___init__ empty_context (with_tags (TagsStr "a"))) =
    (Raise (TypeError "Tags should be a set of tags, not a string."), []) /\
  exists o ws,
    instantiate 0 Task_cls
      (Task___init__ empty_context (with_tags (TagsIter ["a"; "b"]))) =
      (Return o, ws) /\
    attrs o !! "tags" = Some (VSet (list_to_set ["a"; "b"])).
Proof.
  split.
  - apply (tags_str_rejected_collection_stored empty_context
             (with_tags (TagsStr "a")) 0 Task_cls eq_refl) with (s := "a").
    reflexivity.
  - apply (tags_str_rejected_collection_stored empty_context
             (with_tags (TagsIter ["a"; "b"])) 0 Task_cls eq_refl).
    + discriminate.
    + reflexivity.
Defined.

(** C5, as stated, fails: with the ambient tag [c] and the explicit tag
    [a], the stored tags are the set of [a] alone, not the union. *)
Lemma ambient_tags_not_united :
  (exists o ws,
     instantiate 0 Task_cls
       (Task___init__ (context_with_tags ["c"]) (with_tags (TagsIter ["a"]))) =
       (Return o, ws) /\
     attrs o !! "tags" = Some (VSet {["a"]})) /\
  ~ (exists o ws,
       instantiate 0 Task_cls
         (Task___init__ (context_with_tags ["c"]) (with_tags (TagsIter ["a"]))) =
         (Return o, ws) /\
       attrs o !! "tags" = Some (VSet ({["c"]} ∪ {["a"]}))).
Proof.
  destruct (Task_init_plain (context_with_tags ["c"]) (with_tags (TagsIter ["a"]))
              {| self := new_object 0 Task_cls; warned := [] |})
    as (e' & Hrun & _ & Htags & _); [done..|].
  pose proof (instantiate_Return _ _ _ _ Hrun) as Hi.
  split.
  - exists (self e'), (warned e'). split; [done|].
    rewrite Htags. do 2 f_equal; simpl; set_solver.
  - intros (o & ws & Ho & Ht). rewrite Hi in Ho. injection Ho as <- <-.
    rewrite Htags in Ht.
    pose proof (f_equal (fun v => match v with
                                  | Some (VSet s) => bool_decide ("c" ∈ s)
                                  | _ => false
                                  end) Ht) as Hb.
    vm_compute in Hb. discriminate.
Qed.

(** C5 (amended): constructed with a non-empty collection of tags that is
    not a string, a task stores exactly the supplied tags, whatever the
    ambient context tags are; the ambient tags are stored when [tags] is
    [None] or empty. *)
Theorem explicit_tags_replace_ambient
    (ctx : Context) (a : InitArgs) (id : nat) (c : pyclass) :
  is_Parameter c = false ->
  (forall l, l <> [] -> tags a = TagsIter l ->
     exists o ws,
       instantiate id c (Task___init__ ctx a) = (Return o, ws) /\
       attrs o !! "tags" = Some (VSet (list_to_set l))) /\
  (tags a = TagsNone \/ tags a = TagsIter [] ->
     exists o ws,
       instantiate id c (Task___init__ ctx a) = (Return o, ws) /\
       attrs o !! "tags" = Some (VSet (list_to_set (default [] (_tags ctx))))).
Proof.
  intros Hc. split.
  - intros l Hl Ht.
    destruct (Task_init_plain ctx a {| self := new_object id c; warned := [] |})
      as (e' & Hrun & _ & Htags & _); [done|by rewrite Ht|].
    exists (self e'), (warned e'). split; [by apply instantiate_Return|].
    rewrite Htags, Ht. by destruct l.
  - intros Ht.
    destruct (Task_init_plain ctx a {| self := new_object id c; warned := [] |})
      as (e' & Hrun & _ & Htags & _); [done|by destruct Ht as [-> | ->]|].
    exists (self e'), (warned e'). split; [by apply instantiate_Return|].
    rewrite Htags. by destruct Ht as [-> | ->].
Qed.

Lemma explicit_tags_replace_ambient_witness :
  (exists o ws,
     instantiate 0 Task_cls
       (Task___init__ (context_with_tags ["c"]) (with_tags (TagsIter ["a"]))) =
       (Return o, ws) /\
     attrs o !! "tags" = Some (VSet (list_to_set ["a"]))) /\
  (exists o ws,
     instantiate 0 Task_cls
       (Task___init__ (context_with_tags ["c"]) (with_tags TagsNone)) =
       (Return o, ws) /\
     attrs o !! "tags" = Some (VSet (list_to_set ["c"]))).
Proof.
  split.
  - apply (explicit_tags_replace_ambient (context_with_tags ["c"])
             (with_tags (TagsIter ["a"])) 0 Task_cls eq_refl).
    + discriminate.
    + reflexivity.
  - apply (explicit_tags_replace_ambient (context_with_tags ["c"])
             (with_tags TagsNone) 0 Task_cls eq_refl).
    left. reflexivity.
Defined.

(** C9, as stated, fails: a supplied validator whose truth value is
    false is replaced by [never_use]; the warning is still emitted and
    construction still succeeds. *)
Lemma falsy_validator_replaced :
  (exists o,
     instantiate 0 Task_cls
       (Task___init__ empty_context
          (with_cache None (Some (FalsyCallable "Validator")))) =
       (Return o, [cache_warning]) /\
     attrs o !! "cache_validator" = Some (VCallable never_use)) /\
  ~ (exists o ws,
       instantiate 0 Task_cls
         (Task___init__ empty_context
            (with_cache None (Some (FalsyCallable "Validator")))) =
         (Return o, ws) /\
       attrs o !! "cache_validator" =
         Some (VCallable (FalsyCallable "Validator"))).
Proof.
  destruct (Task_init_plain empty_context
              (with_cache None (Some (FalsyCallable "Validator")))
              {| self := new_object 0 Task_cls; warned := [] |})
    as (e' & Hrun & _ & _ & _ & Hval & Hw); [done..|].
  pose proof (instantiate_Return _ _ _ _ Hrun) as Hi. clear Hrun.
  simpl in Hw, Hval. split.
  - exists (self e'). split; [|exact Hval].
    rewrite Hi, Hw. reflexivity.
  - intros (o & ws & Ho & Hv). rewrite Hi in Ho. injection Ho as <- <-.
    rewrite Hval in Hv. discriminate.
Qed.

(** C9 (amended): a [cache_validator] given without [cache_for] makes
    construction emit one warning and still succeed, storing
    [cache_for = None] and, when its truth value is true (as that of
    every function is), the supplied validator itself; a supplied
    validator whose truth value is false counts as not supplied.
    Without a [cache_validator] the stored one is [never_use] when
    [cache_for] is [None] and [duration_only] otherwise. *)
Theorem validator_without_cache_for_warns
    (ctx : Context) (a : InitArgs) (id : nat) (c : pyclass) :
  is_Parameter c = false ->
  (forall s, tags a <> TagsStr s) ->
  (forall v, cache_for a = None -> cache_validator a = Some v ->
     exists o,
       instantiate id c (Task___init__ ctx a) = (Return o, [cache_warning]) /\
       attrs o !! "cache_for" = Some VNone /\
       (callable_truthy v = true ->
        attrs o !! "cache_validator" = Some (VCallable v)) /\
       (callable_truthy v = false ->
        attrs o !! "cache_validator" = Some (VCallable never_use))) /\
  (cache_validator a = None ->
     exists o,
       instantiate id c (Task___init__ ctx a) = (Return o, []) /\
       attrs o !! "cache_for" = Some (of_timedelta (cache_for a)) /\
       attrs o !! "cache_validator" =
         Some (VCallable (match cache_for a with
                          | None => never_use
                          | Some _ => duration_only
                          end))).
Proof.
  intros Hc Htags.
  destruct (Task_init_plain ctx a {| self := new_object id c; warned := [] |})
    as (e' & Hrun & _ & _ & Hfor & Hval & Hw); [done..|].
  pose proof (instantiate_Return _ _ _ _ Hrun) as Hi. simpl in Hw.
  split.
  - intros v Hf Hv. exists (self e'). rewrite Hi, Hw, Hfor, Hval, Hf, Hv.
    simpl. repeat split; by intros ->.
  - intros Hv. exists (self e'). rewrite Hi, Hw, Hfor, Hval, Hv.
    by destruct (cache_for a).
Qed.

Lemma validator_without_cache_for_warns_witness :
  (exists o,
     instantiate 0 Task_cls
       (Task___init__ empty_context
          (with_cache None (Some (UserCallable "all_inputs")))) =
       (Return o, [cache_warning]) /\
     attrs o !! "cache_for" = Some VNone /\
     attrs o !! "cache_validator" =
       Some (VCallable (UserCallable "all_inputs"))) /\
  (exists o,
     instantiate 0 Task_cls
       (Task___init__ empty_context (with_cache (Some 600000000%Z) None)) =
       (Return o, []) /\
     attrs o !! "cache_for" = Some (VTimedelta 600000000) /\
     attrs o !! "cache_validator" = Some (VCallable duration_only)).
Proof.
  split.
  - destruct (validator_without_cache_for_warns empty_context
                (with_cache None (Some (UserCallable "all_inputs"))) 0 Task_cls)
      as [Hgiven _].
    + reflexivity.
    + discriminate.
    + destruct (Hgiven (UserCallable "all_inputs") eq_refl eq_refl)
        as (o & Hrun & Hfor & Hkept & _).
      exists o. split; [exact Hrun|]. split; [exact Hfor|].
      apply Hkept. reflexivity.
  - apply (validator_without_cache_for_warns empty_context
             (with_cache (Some 600000000%Z) None) 0 Task_cls).
    + reflexivity.
    + discriminate.
    + reflexivity.
Defined.

(** ** Parameter construction *)

(** The name a [Parameter] of class [c] ends up with is the name given,
    unless that name is empty, in which case the class name stands in and
    the slug check fails. *)
Lemma Parameter_init_ok ctx id c nm d r :
  is_Parameter c = true ->
  str_or (Some nm) (class_name c) = nm ->
  exists o,
    instantiate id c (Parameter___init__ ctx nm d r) = (Return o, []) /\
    oid o = id /\ cls o = c /\ _name o = Some nm /\
    attrs o !! "required" =
      Some (VBool (match d with VNone => r | _ => false end)) /\
    attrs o !! "default" = Some d.
Proof.
  intros Hc Hnm. run_init. repeat (rewrite Hc; simpl).
  simpl in Hnm. rewrite Hnm. destruct (decide (Some nm <> Some nm)) as [|_]; [done|].
  simpl. eexists. split; [reflexivity|]. simpl.
  repeat split; by simplify_map_eq.
Qed.

Lemma Parameter_init_fail ctx id c nm d r :
  is_Parameter c = true ->
  str_or (Some nm) (class_name c) <> nm ->
  instantiate id c (Parameter___init__ ctx nm d r) =
    (Raise (AttributeError "Parameter slug must be the same as its name."), []).
Proof.
  intros Hc Hnm. run_init. repeat (rewrite Hc; simpl).
  simpl in Hnm.
  destruct (decide (Some nm <> Some _)) as [_|Heq]; [done|].
  destruct Hnm. apply dec_stable in Heq. congruence.
Qed.

(** Every constructed [Parameter] has the attributes its constructor
    assigns. *)
Lemma Parameter_init_inv ctx id c nm d r o ws :
  is_Parameter c = true ->
  instantiate id c (Parameter___init__ ctx nm d r) = (Return o, ws) ->
  ws = [] /\ oid o = id /\ cls o = c /\ _name o = Some nm /\
  attrs o !! "required" =
    Some (VBool (match d with VNone => r | _ => false end)) /\
  attrs o !! "default" = Some d.
Proof.
  intros Hc Hrun.
  destruct (decide (str_or (Some nm) (class_name c) = nm)) as [Hnm|Hnm].
  - destruct (Parameter_init_ok ctx id c nm d r Hc Hnm) as (o' & Hrun' & H).
    rewrite Hrun' in Hrun. by injection Hrun as <- <-.
  - by rewrite (Parameter_init_fail ctx id c nm d r Hc Hnm) in Hrun.
Qed.

(** C10: a [Parameter] constructed with a default that is not [None] has
    its [required] flag stored as [False], whatever was passed; with the
    default [None] the flag is stored as passed.  Construction succeeds
    for every non-empty name. *)
Theorem default_clears_required
    (ctx : Context) (id : nat) (c : pyclass) (nm : string) (d : pyval)
    (r : bool) :
  is_Parameter c = true ->
  (forall o ws,
     instantiate id c (Parameter___init__ ctx nm d r) = (Return o, ws) ->
     (d <> VNone -> attrs o !! "required" = Some (VBool false)) /\
     (d = VNone -> attrs o !! "required" = Some (VBool r))) /\
  (nm <> EmptyString ->
   exists o, instantiate id c (Parameter___init__ ctx nm d r) = (Return o, [])).
Proof.
  intros Hc. split.
  - intros o ws Hrun.
    destruct (Parameter_init_inv _ _ _ _ _ _ _ _ Hc Hrun)
      as (_ & _ & _ & _ & Hreq & _).
    rewrite Hreq. split; intros Hd; by destruct d.
  - intros Hnm.
    destruct (Parameter_init_ok ctx id c nm d r Hc) as (o & Hrun & _).
    + simpl. by destruct (decide (nm = EmptyString)).
    + by exists o.
Qed.

Lemma default_clears_required_witness :
  exists o,
    instantiate 0 Parameter_cls
      (Parameter___init__ empty_context "x" (VInt 5) true) = (Return o, []) /\
    attrs o !! "required" = Some (VBool false).
Proof.
  destruct (default_clears_required empty_context 0 Parameter_cls "x" (VInt 5)
              true eq_refl) as [Hstored Hok].
  destruct Hok as [o Ho]; [discriminate|].
  exists o. split; [exact Ho|].
  apply (Hstored o [] Ho). discriminate.
Defined.

(** ** Parameter.run *)

Lemma Parameter_run_eq ctx o nm req d :
  _name o = Some nm ->
  attrs o !! "required" = Some (VBool req) ->
  attrs o !! "default" = Some d ->
  Parameter_run ctx o =
    match default ∅ (_parameters ctx) !! nm with
    | Some v => Return v
    | None => if req then Raise (FAIL (required_message nm)) else Return d
    end.
Proof.
  intros Hnm Hreq Hd. unfold Parameter_run, Parameter_name, load, rbind.
  rewrite Hnm, Hreq, Hd. simpl.
  destruct (default ∅ (_parameters ctx) !! nm) as [v|] eqn:Hv;
    destruct req; simpl; try rewrite Hv; simpl; try done.
Qed.

(** The message of the [FAIL] signal, character by character: the name
    stands between two double quotes (character 34). *)
Lemma required_message_eq (nm : string) :
  required_message nm =
    "Parameter " +:+
    String "034"%char (nm +:+ String "034"%char " was required but not provided.").
Proof. reflexivity. Qed.

(** C7: on a required [Parameter] whose name is absent from the ambient
    parameter mapping, [run] raises [FAIL] with exactly the message
    [Parameter], a space, the name between double quotes (character 34),
    and [ was required but not provided.]; when the name is present
    [run] returns the mapped value; when it is absent and the [Parameter]
    is not required, [run] returns the default. *)
Theorem required_parameter_absent_fails
    (ctx0 ctx : Context) (id : nat) (c : pyclass) (nm : string) (d : pyval)
    (r : bool) (o : object) (ws : list string) :
  is_Parameter c = true ->
  instantiate id c (Parameter___init__ ctx0 nm d r) = (Return o, ws) ->
  (attrs o !! "required" = Some (VBool true) ->
   default ∅ (_parameters ctx) !! nm = None ->
   Parameter_run ctx o =
     Raise (FAIL ("Parameter " +:+
                  String "034"%char
                    (nm +:+
                     String "034"%char " was required but not provided.")))) /\
  (forall v, default ∅ (_parameters ctx) !! nm = Some v ->
   Parameter_run ctx o = Return v) /\
  (attrs o !! "required" = Some (VBool false) ->
   default ∅ (_parameters ctx) !! nm = None ->
   Parameter_run ctx o = Return d).
Proof.
  intros Hc Hrun.
  destruct (Parameter_init_inv _ _ _ _ _ _ _ _ Hc Hrun)
    as (_ & _ & _ & Hnm & Hreq & Hd).
  pose proof (Parameter_run_eq ctx o nm _ d Hnm Hreq Hd) as Heq.
  repeat split.
  - intros Hr Hp. rewrite Hr in Hreq. injection Hreq as Hreq.
    by rewrite <- required_message_eq, Heq, Hp, <- Hreq.
  - intros v Hp. by rewrite Heq, Hp.
  - intros Hr Hp. rewrite Hr in Hreq. injection Hreq as Hreq.
    by rewrite Heq, Hp, <- Hreq.
Qed.

Lemma required_parameter_absent_fails_witness :
  Parameter_run empty_context parameter_x =
    Raise (FAIL ("Parameter " +:+
                 String "034"%char
                   ("x" +:+
                    String "034"%char " was required but not provided."))) /\
  Parameter_run (context_with_parameters {["x" := VInt 5]}) parameter_x =
    Return (VInt 5) /\
  Parameter_run empty_context parameter_x_5 = Return (VInt 5).
Proof.
  split; [|split].
  - apply (required_parameter_absent_fails empty_context empty_context 0
             Parameter_cls "x" VNone true parameter_x []).
    + reflexivity.
    + vm_compute. reflexivity.
    + vm_compute. reflexivity.
    + vm_compute. reflexivity.
  - apply (required_parameter_absent_fails empty_context
             (context_with_parameters {["x" := VInt 5]}) 0
             Parameter_cls "x" VNone true parameter_x []).
    + reflexivity.
    + vm_compute. reflexivity.
    + vm_compute. reflexivity.
  - apply (required_parameter_absent_fails empty_context empty_context 0
             Parameter_cls "x" (VInt 5) true parameter_x_5 []).
    + reflexivity.
    + vm_compute. reflexivity.
    + vm_compute. reflexivity.
    + vm_compute. reflexivity.
Defined.

(** ** The name and slug of a Parameter *)

(** Once [_name] is set, assigning the name raises and assigning the slug
    either raises or does nothing: no assignment changes the instance. *)
Lemma attempt_fixed (e : Env) (s : assignment) (nm : string) :
  is_Parameter (cls (self e)) = true ->
  _name (self e) = Some nm ->
  attempt e s = e.
Proof.
  intros Hc Hnm. destruct s as [v|v]; simpl.
  - unfold set_name, Parameter_name_setter, has__name. rewrite Hc, Hnm.
    rewrite bool_decide_eq_true_2 by eauto. done.
  - unfold set_slug, Parameter_slug_setter, Parameter_name. rewrite Hc, Hnm.
    by destruct (decide (v <> Some nm)).
Qed.

Lemma attempts_fixed (ops : list assignment) (e : Env) (nm : string) :
  is_Parameter (cls (self e)) = true ->
  _name (self e) = Some nm ->
  foldl attempt e ops = e.
Proof.
  intros Hc Hnm. induction ops as [|s ops IH]; simpl; [done|].
  by rewrite (attempt_fixed e s nm).
Qed.

(** C8: after construction the slug of a [Parameter] equals its name;
    assigning the name raises [AttributeError], and so does assigning the
    slug a value other than the name; whatever assignments are attempted,
    the instance, its name and its slug stay as they were. *)
Theorem parameter_name_slug_permanent
    (ctx : Context) (id : nat) (c : pyclass) (nm : string) (d : pyval)
    (r : bool) (o : object) (ws : list string) :
  is_Parameter c = true ->
  instantiate id c (Parameter___init__ ctx nm d r) = (Return o, ws) ->
  get_name o = Return (VStr nm) /\
  get_slug o = get_name o /\
  (forall w value,
     set_name value {| self := o; warned := w |} =
       (Raise (AttributeError "Parameter name can not be changed"),
        {| self := o; warned := w |})) /\
  (forall w value,
     value <> Some nm ->
     set_slug value {| self := o; warned := w |} =
       (Raise (AttributeError "Parameter slug must be the same as its name."),
        {| self := o; warned := w |})) /\
  (forall w,
     set_slug (Some nm) {| self := o; warned := w |} =
       (Return tt, {| self := o; warned := w |})) /\
  (forall w ops,
     let e' := foldl attempt {| self := o; warned := w |} ops in
     self e' = o /\
     get_name (self e') = Return (VStr nm) /\
     get_slug (self e') = Return (VStr nm)).
Proof.
  intros Hc Hrun.
  destruct (Parameter_init_inv _ _ _ _ _ _ _ _ Hc Hrun)
    as (_ & _ & Hcls & Hnm & _). subst c.
  assert (Hget : get_name o = Return (VStr nm)).
  { unfold get_name, Parameter_name. by rewrite Hc, Hnm. }
  assert (Hslug : get_slug o = Return (VStr nm)).
  { unfold get_slug, Parameter_slug, Parameter_name. by rewrite Hc, Hnm. }
  split; [done|]. split; [by rewrite Hget|]. split; [|split; [|split]].
  - intros w value.
    unfold set_name, Parameter_name_setter, has__name. simpl.
    rewrite Hc, Hnm. by rewrite bool_decide_eq_true_2 by eauto.
  - intros w value Hv.
    unfold set_slug, Parameter_slug_setter, Parameter_name. simpl.
    rewrite Hc, Hnm. by destruct (decide (value <> Some nm)).
  - intros w.
    unfold set_slug, Parameter_slug_setter, Parameter_name. simpl.
    rewrite Hc, Hnm. by destruct (decide (Some nm <> Some nm)).
  - intros w ops e'. subst e'.
    by rewrite (attempts_fixed ops {| self := o; warned := w |} nm).
Qed.

Lemma parameter_name_slug_permanent_witness :
  get_name parameter_x = Return (VStr "x") /\
  get_slug parameter_x = get_name parameter_x /\
  set_name "y" {| self := parameter_x; warned := [] |} =
    (Raise (AttributeError "Parameter name can not be changed"),
     {| self := parameter_x; warned := [] |}) /\
  set_slug (Some "y") {| self := parameter_x; warned := [] |} =
    (Raise (AttributeError "Parameter slug must be the same as its name."),
     {| self := parameter_x; warned := [] |}) /\
  self (foldl attempt {| self := parameter_x; warned := [] |}
          [AssignName "y"; AssignSlug (Some "y"); AssignSlug None]) =
    parameter_x.
Proof.
  assert (instantiate 0 Parameter_cls
            (Parameter___init__ empty_context "x" VNone true) =
          (Return parameter_x, [])) as Hrun by (vm_compute; reflexivity).
  destruct (parameter_name_slug_permanent empty_context 0 Parameter_cls "x"
              VNone true parameter_x [] eq_refl Hrun)
    as (Hname & Hslug & Hset & Hsl & _ & Hall).
  split; [exact Hname|]. split; [exact Hslug|].
  split; [exact (Hset [] "y")|].
  split; [apply (Hsl [] (Some "y")); discriminate|].
  exact (proj1 (Hall [] [AssignName "y"; AssignSlug (Some "y"); AssignSlug None])).
Defined.

(** ** SignatureValidator *)

Section signature_validator.
Variables (name : string) (parents : list class_object)
          (methods : list (string * list InspectParameter)).

(** The [run] that the metaclass inspects. *)
Let run : list InspectParameter := default [] (dict_get methods "run").








End signature_validator.






(** ** Dependency binding *)

Lemma dict_get_del_None {V} (d : list (string * V)) (k k' : string) :
  dict_get d k' = None -> dict_get (dict_del d k) k' = None.
Proof.
  induction d as [|[j v] d IH]; simpl; [done|].
  destruct (decide (j = k')) as [->|Hj]; [done|]. intros Hd.
  destruct (decide (j = k)) as [->|Hk]; simpl; [done|].
  destruct (decide (j = k')); [done|]. by apply IH.
Qed.

(** No [str] key of a dictionary is found by a key that is not a [str]. *)
Lemma dict_get_to_dict (arguments : list (string * pyval)) (k : pykey) :
  (forall s, k <> KStr s) -> dict_get (to_dict arguments) k = None.
Proof.
  intros Hk. induction arguments as [|[j v] d IH]; simpl; [done|].
  destruct (decide (KStr j = k)) as [<-|_]; [by destruct (Hk j)|done].
Qed.

(** The lookup of the variable-keyword parameter finds nothing, so the
    keyword tasks are the bound arguments as [bind] left them. *)
Lemma callargs_of_eq signature args kwargs :
  callargs_of signature args kwargs =
    match Signature_bind signature args kwargs with
    | Raise x => Raise x
    | Return arguments => Return (to_dict arguments)
    end.
Proof.
  unfold callargs_of. destruct (Signature_bind _ _ _) as [arguments|x]; [|done].
  unfold dict_pop. rewrite dict_get_to_dict; [done|].
  intros s. by destruct (List.find _ signature).
Qed.

(** [Task.__call__] by cases. *)
Lemma Task_call_eq ctx o args ups kwargs flows :
  Task___call__ ctx o args ups kwargs flows =
    match callargs_of (run_signature (cls o)) args kwargs with
    | Raise x => (Raise x, flows)
    | Return callargs =>
        match _flow ctx with
        | None =>
            (Raise (ValueError "Could not infer an active Flow context."), flows)
        | Some f => (Return o, alter (committed o callargs ups) f flows)
        end
    end.
Proof.
  unfold Task___call__, bind, lift, raise, ret.
  destruct (callargs_of _ _ _) as [callargs|x]; [|done].
  destruct (_flow ctx) as [f|]; [|done].
  unfold Task_set_dependencies, Flow_set_dependencies, committed. simpl.
  by rewrite app_nil_r.
Qed.

(** *** [Signature.bind] *)

Ltac bind_step :=
  repeat first
    [ progress simpl
    | case_decide
    | case_bool_decide
    | match goal with
      | |- context [dict_contains ?d ?k] => destruct (dict_contains d k) eqn:?
      | |- context [p_has_default ?p] => destruct (p_has_default p) eqn:?
      | |- context [match dict_get ?d ?k with _ => _ end] =>
          destruct (dict_get d k) eqn:?
      end ].

(** Every exception of [bind] is a [TypeError]. *)
Lemma bind_positional_TypeError args :
  forall parameters kwargs arguments x,
    bind_positional parameters args kwargs arguments = Raise x ->
    exists msg, x = TypeError msg.
Proof.
  induction args as [|arg_val args IH];
    intros [|param rest] kwargs arguments x; simpl; try done;
    bind_step; intros Hx; try done; try (injection Hx as <-; eauto; fail).
  all: by eapply IH.
Qed.

Lemma bind_keywords_TypeError parameters :
  forall kwargs arguments kwargs_param x,
    bind_keywords parameters kwargs arguments kwargs_param = Raise x ->
    exists msg, x = TypeError msg.
Proof.
  induction parameters as [|param rest IH];
    intros kwargs arguments kwargs_param x; simpl; [done|].
  bind_step; intros Hx; try (injection Hx as <-; eauto; fail);
    by eapply IH.
Qed.

Lemma Signature_bind_TypeError signature args kwargs x :
  Signature_bind signature args kwargs = Raise x ->
  exists msg, x = TypeError msg.
Proof.
  unfold Signature_bind.
  destruct (bind_positional _ _ _ _) as [[parameters arguments]|y] eqn:Hpos.
  - destruct (bind_keywords _ _ _ _) as [[[kwargs' arguments'] kp]|y] eqn:Hkw.
    + destruct kwargs' as [|[k v] kwargs']; [done|].
      destruct kp; [done|]. intros [= <-]. eauto.
    + intros [= <-]. by eapply bind_keywords_TypeError.
  - intros [= <-]. by eapply bind_positional_TypeError.
Qed.

(** More positional arguments than parameters that take one. *)
Lemma bind_positional_extra args :
  forall parameters kwargs arguments,
    Forall (fun p => p_kind p <> VAR_POSITIONAL) parameters ->
    length (List.filter accepts_positional parameters) < length args ->
    exists msg,
      bind_positional parameters args kwargs arguments = Raise (TypeError msg).
Proof.
  induction args as [|arg_val args IH];
    intros [|param rest] kwargs arguments Hvar Hlen; simpl in *;
    try lia; eauto.
  apply Forall_cons in Hvar as [Hparam Hrest].
  destruct param as [nm [] hd]; simpl in *; try done; eauto;
    destruct (dict_contains kwargs nm); simpl; eauto; (apply IH; [done|lia]).
Qed.

(** A required parameter that the call does not supply. *)
Lemma bind_positional_missing args :
  forall parameters kwargs arguments i p,
    parameters !! i = Some p ->
    length args <= i ->
    p_kind p <> VAR_POSITIONAL ->
    (exists msg,
       bind_positional parameters args kwargs arguments = Raise (TypeError msg)) \/
    (exists rest arguments',
       bind_positional parameters args kwargs arguments =
         Return (rest, arguments') /\
       p ∈ rest).
Proof.
  induction args as [|arg_val args IH];
    intros [|param rest] kwargs arguments i p Hp Hi Hk; simpl in *; try done.
  - assert (p ∈ param :: rest) as Hin by (by eapply list_elem_of_lookup_2).
    destruct (decide (p_kind param = VAR_POSITIONAL)) as [Hvar|_].
    { right. exists rest, arguments. split; [done|].
      apply elem_of_cons in Hin as [->|Hin]; done. }
    destruct (dict_contains kwargs (p_name param)).
    { destruct (decide (p_kind param = POSITIONAL_ONLY)); eauto 6. }
    destruct (_ || _); eauto 6.
  - destruct i as [|i]; [lia|]. simpl in Hp.
    destruct (_ || _); eauto.
    destruct (decide (p_kind param = VAR_POSITIONAL)).
    { right. do 2 eexists. split; [done|]. by eapply list_elem_of_lookup_2. }
    destruct (_ && _); eauto.
    apply (IH _ _ _ i); [done|lia|done].
Qed.

Lemma bind_keywords_missing parameters :
  forall kwargs arguments kwargs_param p,
    p ∈ parameters ->
    p_has_default p = false ->
    p_kind p <> VAR_POSITIONAL ->
    p_kind p <> VAR_KEYWORD ->
    dict_get kwargs (p_name p) = None ->
    exists msg,
      bind_keywords parameters kwargs arguments kwargs_param =
        Raise (TypeError msg).
Proof.
  induction parameters as [|param rest IH];
    intros kwargs arguments kwargs_param p Hin Hd Hvp Hvk Hget; simpl.
  { by apply elem_of_nil in Hin. }
  apply elem_of_cons in Hin as [<-|Hin].
  - destruct (decide (p_kind p = VAR_KEYWORD)); [done|].
    destruct (decide (p_kind p = VAR_POSITIONAL)); [done|].
    rewrite Hget, Hd. simpl. eauto.
  - destruct (decide (p_kind param = VAR_KEYWORD)); [by eapply IH|].
    destruct (decide (p_kind param = VAR_POSITIONAL)); [by eapply IH|].
    destruct (dict_get kwargs (p_name param)) as [arg_val|].
    + destruct (decide (p_kind param = POSITIONAL_ONLY)); [eauto|].
      eapply IH; eauto using dict_get_del_None.
    + destruct (negb (p_has_default param)); [eauto|]. by eapply IH.
Qed.

Lemma Signature_bind_extra signature args kwargs :
  extra_positional signature args ->
  exists msg, Signature_bind signature args kwargs = Raise (TypeError msg).
Proof.
  intros [Hvar Hlen]. unfold Signature_bind.
  destruct (bind_positional_extra args signature kwargs [] Hvar Hlen)
    as [msg ->]. eauto.
Qed.

Lemma Signature_bind_missing signature args kwargs :
  missing_required signature args kwargs ->
  exists msg, Signature_bind signature args kwargs = Raise (TypeError msg).
Proof.
  intros (i & p & Hp & Hi & Hd & Hvp & Hvk & Hget). unfold Signature_bind.
  destruct (bind_positional_missing args signature kwargs [] i p Hp Hi Hvp)
    as [[msg ->]|(rest & arguments & -> & Hin)]; [eauto|].
  destruct (bind_keywords_missing rest kwargs arguments None p
              Hin Hd Hvp Hvk Hget) as [msg ->]. eauto.
Qed.

(** *** [Task.__call__] *)

(** C3: a call whose arguments do not match the parameters of [run] (a
    required parameter is missing, or there is an extra positional
    argument) makes [bind] raise [TypeError]; [Task.__call__] then raises
    that exception with every flow left as it was.  The call as a whole
    either raises with every flow unchanged, or returns the task with all
    the resolved edges committed to the ambient flow. *)
Theorem mismatch_raises_before_any_edge
    (ctx : Context) (o : object) (args : list pyval)
    (ups : option (list pyval)) (kwargs : list (string * pyval))
    (flows : gmap nat Flow) :
  let signature := run_signature (cls o) in
  let outcome := Task___call__ ctx o args ups kwargs flows in
  (missing_required signature args kwargs \/ extra_positional signature args ->
   exists msg,
     Signature_bind signature args kwargs = Raise (TypeError msg) /\
     outcome = (Raise (TypeError msg), flows)) /\
  (forall x,
     Signature_bind signature args kwargs = Raise x ->
     (exists msg, x = TypeError msg) /\ outcome = (Raise x, flows)) /\
  ((exists x, outcome = (Raise x, flows)) \/
   (exists f callargs,
      _flow ctx = Some f /\
      callargs_of signature args kwargs = Return callargs /\
      outcome = (Return o, alter (committed o callargs ups) f flows))).
Proof.
  intros signature outcome. subst outcome.
  rewrite Task_call_eq. fold signature. rewrite callargs_of_eq.
  split; [|split].
  - intros Hbad.
    assert (exists msg, Signature_bind signature args kwargs = Raise (TypeError msg))
      as [msg Hmsg].
    { destruct Hbad as [Hmiss|Hextra].
      - by apply Signature_bind_missing.
      - by apply Signature_bind_extra. }
    exists msg. by rewrite Hmsg.
  - intros x Hx. split; [by eapply Signature_bind_TypeError|]. by rewrite Hx.
  - destruct (Signature_bind signature args kwargs) as [arguments|x]; [|eauto].
    destruct (_flow ctx) as [f|]; [|eauto].
    right. by exists f, (to_dict arguments).
Qed.

Lemma mismatch_raises_before_any_edge_witness :
  (exists msg,
     Signature_bind (run_signature (cls add_task)) [VInt 1] [] =
       Raise (TypeError msg) /\
     Task___call__ (context_with_flow 0) add_task [VInt 1] None []
       {[0 := mkFlow []]} = (Raise (TypeError msg), {[0 := mkFlow []]})) /\
  (exists msg,
     Signature_bind (run_signature (cls add_task))
       [VInt 1; VInt 2; VInt 3] [] = Raise (TypeError msg) /\
     Task___call__ (context_with_flow 0) add_task [VInt 1; VInt 2; VInt 3]
       None [] {[0 := mkFlow []]} =
       (Raise (TypeError msg), {[0 := mkFlow []]})) /\
  Task___call__ (context_with_flow 0) add_task [VInt 1] None []
    {[0 := mkFlow []]} =
    (Raise (TypeError "missing a required argument: 'y'"), {[0 := mkFlow []]}).
Proof.
  split; [|split].
  - apply (mismatch_raises_before_any_edge (context_with_flow 0) add_task
             [VInt 1] None [] {[0 := mkFlow []]}).
    left. exists 1, (mkParameter "y" POSITIONAL_OR_KEYWORD false).
    simpl. repeat split; [lia|discriminate|discriminate].
  - apply (mismatch_raises_before_any_edge (context_with_flow 0) add_task
             [VInt 1; VInt 2; VInt 3] None [] {[0 := mkFlow []]}).
    right. split.
    + repeat constructor; discriminate.
    + simpl. lia.
  - apply (mismatch_raises_before_any_edge (context_with_flow 0) add_task
             [VInt 1] None [] {[0 := mkFlow []]}).
    reflexivity.
Defined.

(** A call that matches: the task-valued argument becomes a keyed edge,
    the literal does not, the explicit upstream task an unkeyed one. *)
Example matching_call_commits_edges :
  Task___call__ (context_with_flow 0) add_task [VTask 5] (Some [VTask 6])
    [("y", VInt 2)] {[0 := mkFlow []]} =
    (Return add_task,
     {[0 := mkFlow [mkEdge 5 1 (Some "x"); mkEdge 6 1 None]]}).
Proof. reflexivity. Qed.

(** C2, as stated, fails: outside of any flow, a call that misses a
    required argument raises the [TypeError] of [bind], not the
    [ValueError] about the flow context. *)
Lemma no_flow_mismatch_raises_TypeError :
  _flow empty_context = None /\
  Task___call__ empty_context add_task [] None [] ∅ =
    (Raise (TypeError "missing a required argument: 'x'"), ∅) /\
  Task___call__ empty_context add_task [] None [] ∅ <>
    (Raise (ValueError "Could not infer an active Flow context."), ∅).
Proof. split; [reflexivity|]. split; [reflexivity|discriminate]. Qed.

(** C2 (amended): outside of any flow, a call whose arguments match the
    parameters of [run] raises [ValueError] with the message that no
    active flow context could be inferred; a call whose arguments do not
    match raises the [TypeError] of [bind] instead; either way every flow
    is left as it was and no edge is recorded. *)
Theorem no_flow_raises_without_effect
    (ctx : Context) (o : object) (args : list pyval)
    (ups : option (list pyval)) (kwargs : list (string * pyval))
    (flows : gmap nat Flow) :
  _flow ctx = None ->
  (forall arguments,
     Signature_bind (run_signature (cls o)) args kwargs = Return arguments ->
     Task___call__ ctx o args ups kwargs flows =
       (Raise (ValueError "Could not infer an active Flow context."), flows)) /\
  (forall x,
     Signature_bind (run_signature (cls o)) args kwargs = Raise x ->
     (exists msg, x = TypeError msg) /\
     Task___call__ ctx o args ups kwargs flows = (Raise x, flows)) /\
  (Task___call__ ctx o args ups kwargs flows).2 = flows.
Proof.
  intros Hflow. rewrite Task_call_eq, callargs_of_eq, Hflow.
  split; [|split].
  - by intros arguments ->.
  - intros x Hx. split; [by eapply Signature_bind_TypeError|]. by rewrite Hx.
  - by destruct (Signature_bind _ _ _).
Qed.

Lemma no_flow_raises_without_effect_witness :
  Task___call__ empty_context add_task [VInt 1; VTask 5] None []
    {[0 := mkFlow []]} =
    (Raise (ValueError "Could not infer an active Flow context."),
     {[0 := mkFlow []]}) /\
  Task___call__ empty_context add_task [] None [] {[0 := mkFlow []]} =
    (Raise (TypeError "missing a required argument: 'x'"), {[0 := mkFlow []]}).
Proof.
  split.
  - apply (no_flow_raises_without_effect empty_context add_task
             [VInt 1; VTask 5] None [] {[0 := mkFlow []]} eq_refl)
      with (arguments := [("x", VInt 1); ("y", VTask 5)]).
    reflexivity.
  - apply (no_flow_raises_without_effect empty_context add_task
             [] None [] {[0 := mkFlow []]} eq_refl).
    reflexivity.
Defined.

(** C1 fails on the code: [callargs.pop] is given the [inspect.Parameter]
    object, not its name, so it never finds the dictionary that [bind]
    stored under the name of the variable-keyword parameter.  For
    [run(self, x, **kwargs)] called with [x=1, y=<task 7>], the keyword
    tasks handed to [set_dependencies] still hold that dictionary under
    [kwargs], have no entry [y], and no edge from task 7 is recorded. *)
Theorem variable_keywords_stay_nested :
  callargs_of (run_signature (cls collect_task)) []
    [("x", VInt 1); ("y", VTask 7)] =
    Return [(KStr "x", VInt 1); (KStr "kwargs", VDict [("y", VTask 7)])] /\
  Task___call__ (context_with_flow 0) collect_task [] None
    [("x", VInt 1); ("y", VTask 7)] {[0 := mkFlow []]} =
    (Return collect_task, {[0 := mkFlow []]}).
Proof. split; reflexivity. Qed.

(** ** Further properties of construction *)

(** What [Task.__init__] assigns on an instance without the [Parameter]
    properties, attribute by attribute. *)
Lemma Task_init_attrs ctx a e :
  is_Parameter (cls (self e)) = false ->
  (forall s, tags a <> TagsStr s) ->
  exists e',
    Task___init__ ctx a e = (Return tt, e') /\
    oid (self e') = oid (self e) /\ cls (self e') = cls (self e) /\
    attrs (self e') !! "name" =
      Some (VStr (str_or (name a) (class_name (cls (self e))))) /\
    attrs (self e') !! "slug" = Some (of_str (slug a)) /\
    attrs (self e') !! "description" = Some (of_str (description a)) /\
    attrs (self e') !! "group" =
      Some (VStr (str_or (group a) (default EmptyString (_group ctx)))) /\
    attrs (self e') !! "max_retries" = Some (VInt (max_retries a)) /\
    attrs (self e') !! "retry_delay" = Some (VTimedelta (retry_delay a)) /\
    attrs (self e') !! "timeout" = Some (of_timedelta (timeout a)) /\
    attrs (self e') !! "trigger" =
      Some (VCallable (callable_or (trigger a) all_successful)) /\
    attrs (self e') !! "skip_on_upstream_skip" =
      Some (VBool (skip_on_upstream_skip a)).
Proof.
  destruct e as [[id c nm at_] w]. simpl. intros Hcls Htags.
  run_init. repeat (rewrite Hcls; simpl).
  destruct (tags a) as [|s|l] eqn:Ht; [|by destruct (Htags s)|]; simpl;
    destruct (cache_for a), (cache_validator a); simpl;
    (eexists; split; [reflexivity|]); simpl;
    repeat split; by simplify_map_eq.
Qed.

(** X1: the name of a task is the name given, and the name of its class
    when no name or an empty name is given. *)
Theorem name_defaults_to_class_name
    (ctx : Context) (a : InitArgs) (id : nat) (c : pyclass) :
  is_Parameter c = false ->
  (forall s, tags a <> TagsStr s) ->
  exists o ws,
    instantiate id c (Task___init__ ctx a) = (Return o, ws) /\
    (name a = None \/ name a = Some EmptyString ->
     get_name o = Return (VStr (class_name c))) /\
    (forall s, s <> EmptyString -> name a = Some s ->
     get_name o = Return (VStr s)).
Proof.
  intros Hc Htags.
  destruct (Task_init_attrs ctx a {| self := new_object id c; warned := [] |})
    as (e' & Hrun & _ & Hcls & Hname & _); [done..|].
  exists (self e'), (warned e'). split; [by apply instantiate_Return|].
  unfold get_name, load. rewrite Hcls, Hname. simpl. rewrite Hc.
  split.
  - by intros [-> | ->].
  - intros s Hs ->. simpl. by destruct (decide (s = EmptyString)).
Qed.

Lemma name_defaults_to_class_name_witness :
  exists o ws,
    instantiate 3 (Subclass "AddTask" Task_cls None)
      (Task___init__ empty_context default_args) = (Return o, ws) /\
    get_name o = Return (VStr "AddTask").
Proof.
  destruct (name_defaults_to_class_name empty_context default_args 3
              (Subclass "AddTask" Task_cls None))
    as (o & ws & Hrun & Hdefault & _).
  - reflexivity.
  - discriminate.
  - exists o, ws. split; [exact Hrun|]. apply Hdefault. left. reflexivity.
Defined.

(** X2: the group of a task is the group given when it is not empty,
    else the ambient group of the context, else the empty string. *)
Theorem group_defaults_to_context
    (ctx : Context) (a : InitArgs) (id : nat) (c : pyclass) :
  is_Parameter c = false ->
  (forall s, tags a <> TagsStr s) ->
  exists o ws,
    instantiate id c (Task___init__ ctx a) = (Return o, ws) /\
    (forall g, g <> EmptyString -> group a = Some g ->
     attrs o !! "group" = Some (VStr g)) /\
    (group a = None \/ group a = Some EmptyString ->
     attrs o !! "group" = Some (VStr (default EmptyString (_group ctx)))).
Proof.
  intros Hc Htags.
  destruct (Task_init_attrs ctx a {| self := new_object id c; warned := [] |})
    as (e' & Hrun & _ & _ & _ & _ & _ & Hgroup & _); [done..|].
  exists (self e'), (warned e'). split; [by apply instantiate_Return|].
  rewrite Hgroup. split.
  - intros g Hg ->. simpl. by destruct (decide (g = EmptyString)).
  - by intros [-> | ->].
Qed.

Lemma group_defaults_to_context_witness :
  exists o ws,
    instantiate 3 Task_cls
      (Task___init__ (mkContext None (Some "etl") None None) default_args) =
      (Return o, ws) /\
    attrs o !! "group" = Some (VStr "etl").
Proof.
  destruct (group_defaults_to_context (mkContext None (Some "etl") None None)
              default_args 3 Task_cls)
    as (o & ws & Hrun & _ & Hdefault).
  - reflexivity.
  - discriminate.
  - exists o, ws. split; [exact Hrun|]. apply Hdefault. left. reflexivity.
Defined.

(** X3: serialising a task right after construction gives back, field
    by field, the arguments of the constructor with their defaults
    filled in, and the qualified name of the class under [type]; a
    trigger or a cache validator whose truth value is false counts as
    not given. *)
Theorem serialize_after_construction
    (to_qualified_name : pyclass -> string)
    (ctx : Context) (a : InitArgs) (id : nat) (c : pyclass) :
  is_Parameter c = false ->
  (forall s, tags a <> TagsStr s) ->
  exists o ws,
    instantiate id c (Task___init__ ctx a) = (Return o, ws) /\
    Task_serialize to_qualified_name o =
      Return
        [("name", VStr (str_or (name a) (class_name c)));
         ("slug", of_str (slug a));
         ("description", of_str (description a));
         ("group", VStr (str_or (group a) (default EmptyString (_group ctx))));
         ("tags", VSet (list_to_set
            (tags_or (match tags a with TagsIter l => Some l | _ => None end)
                     (default [] (_tags ctx)))));
         ("type", VStr (to_qualified_name c));
         ("max_retries", VInt (max_retries a));
         ("retry_delay", VTimedelta (retry_delay a));
         ("timeout", of_timedelta (timeout a));
         ("trigger", VCallable (callable_or (trigger a) all_successful));
         ("skip_on_upstream_skip", VBool (skip_on_upstream_skip a));
         ("cache_for", of_timedelta (cache_for a));
         ("cache_validator",
          VCallable (callable_or (cache_validator a)
                       (match cache_for a with
                        | None => never_use
                        | Some _ => duration_only
                        end)))].
Proof.
  intros Hc Htags.
  destruct (Task_init_attrs ctx a {| self := new_object id c; warned := [] |})
    as (e' & Hrun & _ & Hcls & Hname & Hslug & Hdesc & Hgroup & Hretries
        & Hdelay & Htimeout & Htrigger & Hskip); [done..|].
  destruct (Task_init_plain ctx a {| self := new_object id c; warned := [] |})
    as (e'' & Hrun' & _ & Htagsv & Hfor & Hval & _); [done..|].
  rewrite Hrun in Hrun'. injection Hrun' as <-.
  exists (self e'), (warned e'). split; [by apply instantiate_Return|].
  unfold Task_serialize, get_name, get_slug, load, rbind.
  simpl in Hcls. rewrite Hcls, Hc.
  by rewrite Hname, Hslug, Hdesc, Hgroup, Htagsv, Hretries, Hdelay, Htimeout,
    Htrigger, Hskip, Hfor, Hval.
Qed.

Lemma serialize_after_construction_witness :
  exists o ws,
    instantiate 3 Task_cls
      (Task___init__ (context_with_tags ["c"]) (with_tags (TagsIter ["a"; "b"]))) =
      (Return o, ws) /\
    dict_get (default [] (match Task_serialize (fun _ => "prefect.core.task.Task") o with
                          | Return d => Some d
                          | Raise _ => None
                          end)) "tags" =
      Some (VSet (list_to_set ["a"; "b"])).
Proof.
  destruct (serialize_after_construction (fun _ => "prefect.core.task.Task")
              (context_with_tags ["c"]) (with_tags (TagsIter ["a"; "b"]))
              3 Task_cls)
    as (o & ws & Hrun & Hser).
  - reflexivity.
  - discriminate.
  - exists o, ws. split; [exact Hrun|]. rewrite Hser. reflexivity.
Defined.

(** What [Parameter.__init__] leaves in the instance dictionary through
    [Task.__init__]. *)
Lemma Parameter_init_attrs ctx id c nm d r o ws :
  is_Parameter c = true ->
  instantiate id c (Parameter___init__ ctx nm d r) = (Return o, ws) ->
  attrs o !! "name" = None /\ attrs o !! "slug" = None /\
  attrs o !! "description" = Some VNone /\
  attrs o !! "group" = Some (VStr (default EmptyString (_group ctx))) /\
  attrs o !! "tags" = Some (VSet (list_to_set (default [] (_tags ctx)))) /\
  attrs o !! "max_retries" = Some (VInt 0) /\
  attrs o !! "retry_delay" = Some (VTimedelta 60000000) /\
  attrs o !! "timeout" = Some VNone /\
  attrs o !! "trigger" = Some (VCallable all_successful) /\
  attrs o !! "skip_on_upstream_skip" = Some (VBool true) /\
  attrs o !! "cache_for" = Some VNone /\
  attrs o !! "cache_validator" = Some (VCallable never_use).
Proof.
  intros Hc. run_init. repeat (rewrite Hc; simpl).
  destruct (decide (Some nm <> Some _)) as [|_]; [done|].
  simpl. intros [= <- <-]. simpl. repeat split; by simplify_map_eq.
Qed.

(** X4: a constructed [Parameter] serialises with its name under both
    [name] and [slug], the defaults of [Task.__init__] and the ambient
    group and tags elsewhere; [required] and [default] are not part of
    the serialised form. *)
Theorem serialize_parameter
    (to_qualified_name : pyclass -> string)
    (ctx : Context) (id : nat) (c : pyclass) (nm : string) (d : pyval)
    (r : bool) (o : object) (ws : list string) :
  is_Parameter c = true ->
  instantiate id c (Parameter___init__ ctx nm d r) = (Return o, ws) ->
  Task_serialize to_qualified_name o =
    Return
      [("name", VStr nm); ("slug", VStr nm); ("description", VNone);
       ("group", VStr (default EmptyString (_group ctx)));
       ("tags", VSet (list_to_set (default [] (_tags ctx))));
       ("type", VStr (to_qualified_name c));
       ("max_retries", VInt 0); ("retry_delay", VTimedelta 60000000);
       ("timeout", VNone); ("trigger", VCallable all_successful);
       ("skip_on_upstream_skip", VBool true); ("cache_for", VNone);
       ("cache_validator", VCallable never_use)].
Proof.
  intros Hc Hrun.
  destruct (Parameter_init_inv _ _ _ _ _ _ _ _ Hc Hrun)
    as (_ & _ & Hcls & Hnm & _).
  destruct (Parameter_init_attrs _ _ _ _ _ _ _ _ Hc Hrun)
    as (_ & _ & Hdesc & Hgroup & Htagsv & Hretries & Hdelay & Htimeout
        & Htrigger & Hskip & Hfor & Hval).
  unfold Task_serialize, get_name, get_slug, Parameter_slug, Parameter_name,
    load, rbind.
  rewrite Hcls, Hc, Hnm.
  by rewrite Hdesc, Hgroup, Htagsv, Hretries, Hdelay, Htimeout, Htrigger,
    Hskip, Hfor, Hval.
Qed.

Lemma serialize_parameter_witness :
  dict_get (default [] (match Task_serialize (fun _ => "prefect.core.task.Parameter")
                                parameter_x_5 with
                        | Return d => Some d
                        | Raise _ => None
                        end)) "slug" = Some (VStr "x").
Proof.
  rewrite (serialize_parameter (fun _ => "prefect.core.task.Parameter")
             empty_context 0 Parameter_cls "x" (VInt 5) true parameter_x_5 []).
  - reflexivity.
  - reflexivity.
  - vm_compute. reflexivity.
Defined.

(** X5: a [Parameter] cannot be constructed with an empty name: the
    class name stands in for the name, the slug is still the empty
    string, and the slug setter raises. *)
Theorem parameter_empty_name_rejected
    (ctx : Context) (id : nat) (c : pyclass) (d : pyval) (r : bool) :
  is_Parameter c = true ->
  class_name c <> EmptyString ->
  instantiate id c (Parameter___init__ ctx EmptyString d r) =
    (Raise (AttributeError "Parameter slug must be the same as its name."), []).
Proof.
  intros Hc Hname. apply Parameter_init_fail; [done|]. simpl. congruence.
Qed.

Lemma parameter_empty_name_rejected_witness :
  instantiate 0 Parameter_cls
    (Parameter___init__ empty_context EmptyString VNone true) =
    (Raise (AttributeError "Parameter slug must be the same as its name."), []).
Proof.
  apply (parameter_empty_name_rejected empty_context 0 Parameter_cls VNone true).
  - reflexivity.
  - discriminate.
Defined.

(** X6: a [Parameter] constructed with a default that is not [None]
    never fails when run: in every context it returns the mapped value,
    or the default when its name is not mapped, whatever [required] was
    passed. *)
Theorem parameter_with_default_never_fails
    (ctx0 ctx : Context) (id : nat) (c : pyclass) (nm : string) (d : pyval)
    (r : bool) (o : object) (ws : list string) :
  is_Parameter c = true ->
  d <> VNone ->
  instantiate id c (Parameter___init__ ctx0 nm d r) = (Return o, ws) ->
  Parameter_run ctx o = Return (default d (default ∅ (_parameters ctx) !! nm)).
Proof.
  intros Hc Hd Hrun.
  destruct (Parameter_init_inv _ _ _ _ _ _ _ _ Hc Hrun)
    as (_ & _ & _ & Hnm & Hreq & Hdef).
  rewrite (Parameter_run_eq ctx o nm _ d Hnm Hreq Hdef).
  destruct (default ∅ (_parameters ctx) !! nm); [done|]. by destruct d.
Qed.

Lemma parameter_with_default_never_fails_witness :
  Parameter_run empty_context parameter_x_5 = Return (VInt 5).
Proof.
  apply (parameter_with_default_never_fails empty_context empty_context 0
           Parameter_cls "x" (VInt 5) true parameter_x_5 []).
  - reflexivity.
  - discriminate.
  - vm_compute. reflexivity.
Defined.

(** ** Further properties of dependency binding *)

(** X7: whenever [Task.__call__] raises, every flow is as it was, and the
    exception is a [TypeError] of [bind] or the [ValueError] that no
    active flow context could be inferred, the latter only outside of a
    flow; the [ValueError] of [set_dependencies] is never raised. *)
Theorem call_raises_only_TypeError_or_no_flow
    (ctx : Context) (o : object) (args : list pyval)
    (ups : option (list pyval)) (kwargs : list (string * pyval))
    (flows flows' : gmap nat Flow) (x : exn) :
  Task___call__ ctx o args ups kwargs flows = (Raise x, flows') ->
  flows' = flows /\
  ((exists msg, x = TypeError msg) \/
   (x = ValueError "Could not infer an active Flow context." /\
    _flow ctx = None)).
Proof.
  rewrite Task_call_eq, callargs_of_eq.
  destruct (Signature_bind _ _ _) as [arguments|y] eqn:Hbind.
  - destruct (_flow ctx) as [f|]; [done|]. intros [= <- <-]. eauto.
  - intros [= <- <-]. split; [done|]. left.
    by eapply Signature_bind_TypeError.
Qed.

Lemma call_raises_only_TypeError_or_no_flow_witness :
  ({[0 := mkFlow []]} : gmap nat Flow) = {[0 := mkFlow []]} /\
  ((exists msg, TypeError "too many positional arguments" = TypeError msg) \/
   (TypeError "too many positional arguments" =
      ValueError "Could not infer an active Flow context." /\
    _flow (context_with_flow 0) = None)).
Proof.
  apply (call_raises_only_TypeError_or_no_flow (context_with_flow 0) add_task
           [VInt 1; VInt 2; VInt 3] None [] {[0 := mkFlow []]}).
  vm_compute. reflexivity.
Defined.

(** The keys that [dict_set] leaves. *)
Lemma dict_set_keys {V} (d : list (string * V)) (k k' : string) (v : V) :
  k' ∈ (dict_set d k v).*1 -> k' = k \/ k' ∈ d.*1.
Proof.
  induction d as [|[j u] d IH]; simpl.
  - rewrite list_elem_of_singleton. auto.
  - destruct (decide (j = k)) as [->|Hj]; simpl; rewrite !elem_of_cons.
    + intros [->|Hk]; auto.
    + intros [->|Hk]; [by auto|]. apply IH in Hk as [->|Hk]; auto.
Qed.

Lemma bind_positional_keys args :
  forall parameters kwargs arguments rest arguments',
    bind_positional parameters args kwargs arguments = Return (rest, arguments') ->
    (forall p, p ∈ rest -> p ∈ parameters) /\
    (forall k, k ∈ arguments'.*1 ->
       k ∈ arguments.*1 \/ k ∈ p_name <$> parameters).
Proof.
  induction args as [|arg_val args IH];
    intros [|param ps] kwargs arguments rest arguments'; simpl; try done.
  - intros [= <- <-]. auto.
  - destruct (decide (p_kind param = VAR_POSITIONAL)).
    { intros [= <- <-]. split; [|by auto]. intros p Hp. by right. }
    destruct (dict_contains kwargs (p_name param)).
    { destruct (decide (p_kind param = POSITIONAL_ONLY)); [done|].
      intros [= <- <-]. auto. }
    destruct (_ || _); [|done]. intros [= <- <-]. auto.
  - destruct (_ || _); [done|].
    destruct (decide (p_kind param = VAR_POSITIONAL)).
    { intros [= <- <-]. split; [intros p Hp; by right|].
      intros k Hk. apply dict_set_keys in Hk as [->|Hk]; [|by left].
      right. by left. }
    destruct (_ && _); [done|].
    intros Hbind. apply IH in Hbind as [Hrest Hkeys]. split.
    + intros p Hp. right. by apply Hrest.
    + intros k Hk. apply Hkeys in Hk as [Hk|Hk].
      * apply dict_set_keys in Hk as [->|Hk]; [|by left]. right. by left.
      * right. by right.
Qed.

Lemma bind_keywords_keys parameters :
  forall kwargs arguments kp kwargs' arguments' kp',
    bind_keywords parameters kwargs arguments kp =
      Return (kwargs', arguments', kp') ->
    (forall k, k ∈ arguments'.*1 ->
       k ∈ arguments.*1 \/ k ∈ p_name <$> parameters) /\
    (kp' = kp \/ exists p, kp' = Some p /\ p ∈ parameters).
Proof.
  induction parameters as [|param ps IH];
    intros kwargs arguments kp kwargs' arguments' kp'; simpl.
  { intros [= <- <- <-]. auto. }
  assert (forall kw a q,
            bind_keywords ps kw a q = Return (kwargs', arguments', kp') ->
            (forall k, k ∈ a.*1 -> k ∈ arguments.*1 \/ k = p_name param) ->
            (q = kp \/ q = Some param) ->
            (forall k, k ∈ arguments'.*1 ->
               k ∈ arguments.*1 \/ k ∈ p_name param :: (p_name <$> ps)) /\
            (kp' = kp \/ exists p, kp' = Some p /\ p ∈ param :: ps)) as Hstep.
  { intros kw a q Hbind Ha Hq. apply IH in Hbind as [Hkeys Hkp]. split.
    - intros k Hk. apply Hkeys in Hk as [Hk|Hk].
      + apply Ha in Hk as [Hk| ->]; [by left|]. right. by left.
      + right. by right.
    - destruct Hkp as [->|(p & -> & Hp)].
      + destruct Hq as [->| ->]; [by left|]. right. exists param.
        split; [done|]. by left.
      + right. exists p. split; [done|]. by right. }
  destruct (decide (p_kind param = VAR_KEYWORD)).
  { intros Hbind. eapply Hstep; eauto. }
  destruct (decide (p_kind param = VAR_POSITIONAL)).
  { intros Hbind. eapply Hstep; eauto. }
  destruct (dict_get kwargs (p_name param)) as [arg_val|].
  - destruct (decide (p_kind param = POSITIONAL_ONLY)); [done|].
    intros Hbind. eapply Hstep; eauto.
    intros k Hk. apply dict_set_keys in Hk as [->|Hk]; auto.
  - destruct (negb (p_has_default param)); [done|].
    intros Hbind. eapply Hstep; eauto.
Qed.

Lemma Signature_bind_keys signature args kwargs arguments :
  Signature_bind signature args kwargs = Return arguments ->
  forall k, k ∈ arguments.*1 -> k ∈ p_name <$> signature.
Proof.
  unfold Signature_bind.
  destruct (bind_positional _ _ _ _) as [[rest a1]|] eqn:Hpos; [|done].
  destruct (bind_keywords _ _ _ _) as [[[kw a2] kp]|] eqn:Hkw; [|done].
  apply bind_positional_keys in Hpos as [Hrest Hk1].
  apply bind_keywords_keys in Hkw as [Hk2 Hkp].
  assert (forall k, k ∈ a2.*1 -> k ∈ p_name <$> signature) as Ha2.
  { intros k Hk. apply Hk2 in Hk as [Hk|Hk].
    - apply Hk1 in Hk as [Hk|Hk]; [|done]. by apply elem_of_nil in Hk.
    - apply list_elem_of_fmap in Hk as (p & -> & Hp).
      apply list_elem_of_fmap_2. by apply Hrest. }
  destruct kw as [|[j v] kw]; [by intros [= <-]|].
  destruct kp as [param|]; [|done]. intros [= <-] k Hk.
  apply dict_set_keys in Hk as [->|Hk]; [|by apply Ha2].
  destruct Hkp as [|(p & [= ->] & Hp)]; [done|].
  apply list_elem_of_fmap_2. by apply Hrest.
Qed.

(** X8: every keyword task that [Task.__call__] hands to
    [set_dependencies] is keyed by a [str] that is one of the task's
    [inputs()]. *)
Theorem callargs_keys_are_inputs
    (o : object) (args : list pyval) (kwargs : list (string * pyval))
    (callargs : list (pykey * pyval)) (k : pykey) (v : pyval) :
  callargs_of (run_signature (cls o)) args kwargs = Return callargs ->
  (k, v) ∈ callargs ->
  exists s, k = KStr s /\ s ∈ Task_inputs o.
Proof.
  rewrite callargs_of_eq.
  destruct (Signature_bind _ _ _) as [arguments|] eqn:Hbind; [|done].
  intros [= <-] Hin. unfold to_dict in Hin.
  apply list_elem_of_fmap in Hin as ([s u] & [= -> ->] & Hin).
  exists s. split; [done|]. unfold Task_inputs.
  eapply Signature_bind_keys; [done|].
  by apply (list_elem_of_fmap_2 fst) in Hin.
Qed.

Lemma callargs_keys_are_inputs_witness :
  exists s, KStr "kwargs" = KStr s /\ s ∈ Task_inputs collect_task.
Proof.
  apply (callargs_keys_are_inputs collect_task [VInt 1] [("y", VTask 7)]
           [(KStr "x", VInt 1); (KStr "kwargs", VDict [("y", VTask 7)])]
           (KStr "kwargs") (VDict [("y", VTask 7)])).
  - vm_compute. reflexivity.
  - apply list_elem_of_further. apply list_elem_of_here.
Defined.

Lemma dict_get_head {V} (d : list (string * V)) k v :
  dict_get ((k, v) :: d) k = Some v.
Proof. simpl. by destruct (decide (k = k)). Qed.

Lemma dict_get_notin {V} (d : list (string * V)) (k : string) :
  k ∉ d.*1 -> dict_get d k = None.
Proof.
  induction d as [|[j u] d IH]; simpl; [done|].
  rewrite not_elem_of_cons. intros [Hj Hd].
  destruct (decide (j = k)); [congruence|]. by apply IH.
Qed.

Lemma dict_set_notin {V} (d : list (string * V)) (k : string) (v : V) :
  k ∉ d.*1 -> dict_set d k v = (d ++ [(k, v)])%list.
Proof.
  induction d as [|[j u] d IH]; simpl; [done|].
  rewrite not_elem_of_cons. intros [Hj Hd].
  destruct (decide (j = k)); [congruence|]. by rewrite IH.
Qed.

Lemma zip_keys_subseteq {V} (ks : list string) (vs : list V) k :
  k ∈ (zip ks vs).*1 -> k ∈ ks.
Proof.
  revert vs. induction ks as [|j ks IH]; intros [|v vs]; simpl;
    rewrite ?elem_of_nil; try done.
  rewrite !elem_of_cons. intros [->|Hk]; [by left|]. right. by eapply IH.
Qed.

(** The keyword loop takes the parameters [ps] from keywords given in
    the same order. *)
Lemma bind_keywords_zip ps :
  forall vs acc,
    length ps = length vs ->
    Forall (fun p => p_kind p = POSITIONAL_OR_KEYWORD) ps ->
    NoDup (acc.*1 ++ (p_name <$> ps))%list ->
    bind_keywords ps (zip (p_name <$> ps) vs) acc None =
      Return ([], (acc ++ zip (p_name <$> ps) vs)%list, None).
Proof.
  induction ps as [|p ps IH]; intros [|v vs] acc Hlen Hkind Hnodup;
    simpl in *; try done.
  { by rewrite app_nil_r. }
  apply Forall_cons in Hkind as [Hp Hps]. rewrite Hp. simpl.
  destruct (decide (p_name p = p_name p)); [|done]. simpl.
  apply NoDup_app in Hnodup as (Hacc & Hdisj & Hnames).
  apply NoDup_cons in Hnames as [Hp' Hnames].
  rewrite dict_set_notin.
  2:{ intros Hin. apply (Hdisj _ Hin). by left. }
  rewrite IH; [by rewrite <- app_assoc|lia|done|].
  rewrite fmap_app. simpl. apply NoDup_app. split; [|split; [|done]].
  - apply NoDup_app. split; [done|]. split; [|apply NoDup_singleton].
    intros k Hk. rewrite list_elem_of_singleton. intros ->.
    apply (Hdisj _ Hk). by left.
  - intros k Hk. apply elem_of_app in Hk as [Hk|Hk].
    + intros Hk'. apply (Hdisj _ Hk). by right.
    + apply list_elem_of_singleton in Hk as ->. done.
Qed.

(** The positional loop takes the parameters [ps] from the positional
    arguments, and leaves [qs] to the keywords. *)
Lemma bind_positional_zip ps :
  forall vs qs ws acc,
    length ps = length vs ->
    length qs = length ws ->
    Forall (fun p => p_kind p = POSITIONAL_OR_KEYWORD) (ps ++ qs)%list ->
    NoDup (acc.*1 ++ (p_name <$> (ps ++ qs)))%list ->
    bind_positional (ps ++ qs)%list vs (zip (p_name <$> qs) ws) acc =
      Return (qs, (acc ++ zip (p_name <$> ps) vs)%list).
Proof.
  induction ps as [|p ps IH]; intros [|v vs] qs ws acc Hlen Hlen' Hkind Hnodup;
    simpl in *; try done.
  - rewrite app_nil_r. destruct qs as [|q qs]; [done|].
    destruct ws as [|w ws]; [done|].
    apply Forall_cons in Hkind as [Hq _]. simpl. rewrite Hq. simpl.
    unfold dict_contains. rewrite dict_get_head.
    by rewrite bool_decide_eq_true_2 by eauto.
  - apply Forall_cons in Hkind as [Hp Hps]. rewrite Hp. simpl.
    apply NoDup_app in Hnodup as (Hacc & Hdisj & Hnames).
    apply NoDup_cons in Hnames as [Hp' Hnames].
    unfold dict_contains. rewrite dict_get_notin.
    2:{ intros Hin. apply zip_keys_subseteq in Hin. apply Hp'.
        rewrite fmap_app. apply elem_of_app. by right. }
    rewrite bool_decide_eq_false_2 by (by intros [? ?]). simpl.
    rewrite dict_set_notin.
    2:{ intros Hin. apply (Hdisj _ Hin). by left. }
    rewrite IH; [by rewrite <- app_assoc|lia|done|done|].
    rewrite fmap_app. simpl. apply NoDup_app. split; [|split; [|done]].
    + apply NoDup_app. split; [done|]. split; [|apply NoDup_singleton].
      intros k Hk. rewrite list_elem_of_singleton. intros ->.
      apply (Hdisj _ Hk). by left.
    + intros k Hk. apply elem_of_app in Hk as [Hk|Hk].
      * intros Hk'. apply (Hdisj _ Hk). by right.
      * apply list_elem_of_singleton in Hk as ->. done.
Qed.

(** X9: for a [run] with ordinary named parameters, a call that gives
    the first arguments by position and the others by keyword, in
    declaration order, binds every parameter to its argument: the keyword
    tasks are the same whichever way each argument is passed. *)
Theorem positional_and_keyword_calls_agree
    (ps qs : list InspectParameter) (vs ws : list pyval) :
  length ps = length vs ->
  length qs = length ws ->
  Forall (fun p => p_kind p = POSITIONAL_OR_KEYWORD) (ps ++ qs)%list ->
  NoDup (p_name <$> (ps ++ qs)%list) ->
  callargs_of (ps ++ qs)%list vs (zip (p_name <$> qs) ws) =
    Return (to_dict (zip (p_name <$> (ps ++ qs)%list) (vs ++ ws)%list)).
Proof.
  intros Hlen Hlen' Hkind Hnodup.
  rewrite callargs_of_eq. unfold Signature_bind.
  rewrite (bind_positional_zip ps vs qs ws []); [|done..].
  apply Forall_app in Hkind as [_ Hqs].
  rewrite fmap_app in Hnodup.
  rewrite bind_keywords_zip; [|done|done|].
  2:{ simpl. rewrite fst_zip; [done|]. rewrite length_fmap. lia. }
  simpl. rewrite fmap_app, zip_with_app by (by rewrite length_fmap). done.
Qed.

Lemma positional_and_keyword_calls_agree_witness :
  callargs_of (run_signature (cls add_task)) [VTask 5] [("y", VInt 2)] =
    Return [(KStr "x", VTask 5); (KStr "y", VInt 2)].
Proof.
  apply (positional_and_keyword_calls_agree
           [mkParameter "x" POSITIONAL_OR_KEYWORD false]
           [mkParameter "y" POSITIONAL_OR_KEYWORD false]
           [VTask 5] [VInt 2]).
  - reflexivity.
  - reflexivity.
  - repeat constructor.
  - simpl. apply NoDup_cons. split; [|apply NoDup_singleton].
    rewrite list_elem_of_singleton. discriminate.
Defined.

Lemma dict_get_del_ne {V} (d : list (string * V)) (k k' : string) :
  k <> k' -> dict_get (dict_del d k) k' = dict_get d k'.
Proof.
  intros Hne. induction d as [|[j v] d IH]; simpl; [done|].
  destruct (decide (j = k)) as [->|Hj]; simpl.
  - by destruct (decide (k = k')).
  - destruct (decide (j = k')); [done|]. by apply IH.
Qed.

(** Without a variable-keyword parameter, the keyword loop remembers
    none, and it leaves in [kwargs] every keyword that names no
    parameter. *)
Lemma bind_keywords_leaves parameters (k : string) :
  forall kwargs arguments kp kwargs' arguments' kp',
    bind_keywords parameters kwargs arguments kp =
      Return (kwargs', arguments', kp') ->
    Forall (fun p => p_kind p <> VAR_KEYWORD) parameters ->
    k ∉ p_name <$> parameters ->
    kp' = kp /\ dict_get kwargs' k = dict_get kwargs k.
Proof.
  induction parameters as [|param ps IH];
    intros kwargs arguments kp kwargs' arguments' kp'; simpl.
  { by intros [= <- <- <-]. }
  intros Hbind Hkind Hk.
  apply Forall_cons in Hkind as [Hparam Hps].
  apply not_elem_of_cons in Hk as [Hne Hk].
  destruct (decide (p_kind param = VAR_KEYWORD)); [done|].
  destruct (decide (p_kind param = VAR_POSITIONAL)); [by eapply IH|].
  destruct (dict_get kwargs (p_name param)) as [arg_val|].
  - destruct (decide (p_kind param = POSITIONAL_ONLY)); [done|].
    apply IH in Hbind as [-> ->]; [|done..].
    split; [done|]. by apply dict_get_del_ne.
  - destruct (negb (p_has_default param)); [done|]. by eapply IH.
Qed.

Lemma Signature_bind_unexpected signature args kwargs k v :
  Forall (fun p => p_kind p <> VAR_KEYWORD) signature ->
  dict_get kwargs k = Some v ->
  k ∉ p_name <$> signature ->
  exists msg, Signature_bind signature args kwargs = Raise (TypeError msg).
Proof.
  intros Hkind Hget Hk.
  destruct (Signature_bind signature args kwargs) as [arguments|x] eqn:Hbind.
  2:{ apply Signature_bind_TypeError in Hbind as [msg ->]. eauto. }
  exfalso. revert Hbind. unfold Signature_bind.
  destruct (bind_positional _ _ _ _) as [[rest a1]|] eqn:Hpos; [|done].
  destruct (bind_keywords _ _ _ _) as [[[kw a2] kp]|] eqn:Hkw; [|done].
  apply bind_positional_keys in Hpos as [Hrest _].
  apply (bind_keywords_leaves _ k) in Hkw as [-> Hleft].
  - rewrite Hget in Hleft. by destruct kw as [|[j u] kw].
  - rewrite Forall_forall in Hkind |- *. intros p Hp. by apply Hkind, Hrest.
  - intros Hin. apply Hk. apply list_elem_of_fmap in Hin as (p & -> & Hp).
    apply list_elem_of_fmap_2. by apply Hrest.
Qed.

(** X10: when [run] has no variable-keyword parameter, a keyword that
    names none of its parameters makes [Task.__call__] raise a
    [TypeError], with every flow left as it was. *)
Theorem unexpected_keyword_raises
    (ctx : Context) (o : object) (args : list pyval)
    (ups : option (list pyval)) (kwargs : list (string * pyval))
    (flows : gmap nat Flow) (k : string) (v : pyval) :
  Forall (fun p => p_kind p <> VAR_KEYWORD) (run_signature (cls o)) ->
  dict_get kwargs k = Some v ->
  k ∉ Task_inputs o ->
  exists msg,
    Task___call__ ctx o args ups kwargs flows = (Raise (TypeError msg), flows).
Proof.
  intros Hkind Hget Hk.
  destruct (Signature_bind_unexpected _ args kwargs k v Hkind Hget Hk)
    as [msg Hmsg].
  exists msg. by rewrite Task_call_eq, callargs_of_eq, Hmsg.
Qed.

Lemma unexpected_keyword_raises_witness :
  exists msg,
    Task___call__ (context_with_flow 0) add_task [VInt 1; VInt 2] None
      [("z", VTask 5)] {[0 := mkFlow []]} =
      (Raise (TypeError msg), {[0 := mkFlow []]}).
Proof.
  apply (unexpected_keyword_raises (context_with_flow 0) add_task
           [VInt 1; VInt 2] None [("z", VTask 5)] {[0 := mkFlow []]}
           "z" (VTask 5)).
  - repeat constructor; discriminate.
  - reflexivity.
  - unfold Task_inputs. simpl. rewrite !not_elem_of_cons.
    repeat split; try discriminate. apply not_elem_of_nil.
Defined.

(** An ordinary named parameter passed both by position and by
    keyword. *)
Lemma bind_positional_multiple args :
  forall parameters kwargs arguments i p v,
    parameters !! i = Some p ->
    i < length args ->
    p_kind p = POSITIONAL_OR_KEYWORD ->
    Forall (fun q => accepts_positional q = true) (take i parameters) ->
    dict_get kwargs (p_name p) = Some v ->
    exists msg,
      bind_positional parameters args kwargs arguments = Raise (TypeError msg).
Proof.
  induction args as [|arg_val args IH];
    intros [|param ps] kwargs arguments i p v Hp Hi Hkind Hpos Hget;
    simpl in *; try lia; try done.
  destruct i as [|i]; simpl in *.
  - injection Hp as <-. rewrite Hkind. simpl. unfold dict_contains.
    rewrite Hget. rewrite bool_decide_eq_true_2 by eauto. simpl. eauto.
  - apply Forall_cons in Hpos as [Hparam Hps].
    unfold accepts_positional in Hparam.
    destruct param as [nm kind hd]. simpl in *.
    destruct kind; simpl in *; try done;
      (destruct (_ && _); [eauto|]; eapply (IH _ _ _ i); eauto; lia).
Qed.

(** X11: an ordinary named argument that is passed by position and
    again by keyword makes [Task.__call__] raise a [TypeError], with
    every flow left as it was. *)
Theorem argument_given_twice_raises
    (ctx : Context) (o : object) (args : list pyval)
    (ups : option (list pyval)) (kwargs : list (string * pyval))
    (flows : gmap nat Flow) (i : nat) (p : InspectParameter) (v : pyval) :
  run_signature (cls o) !! i = Some p ->
  i < length args ->
  p_kind p = POSITIONAL_OR_KEYWORD ->
  Forall (fun q => accepts_positional q = true)
    (take i (run_signature (cls o))) ->
  dict_get kwargs (p_name p) = Some v ->
  exists msg,
    Task___call__ ctx o args ups kwargs flows = (Raise (TypeError msg), flows).
Proof.
  intros Hp Hi Hkind Hpos Hget.
  destruct (bind_positional_multiple args _ kwargs [] i p v
              Hp Hi Hkind Hpos Hget) as [msg Hmsg].
  exists msg. rewrite Task_call_eq, callargs_of_eq.
  unfold Signature_bind. by rewrite Hmsg.
Qed.

Lemma argument_given_twice_raises_witness :
  exists msg,
    Task___call__ (context_with_flow 0) add_task [VInt 1; VInt 2] None
      [("y", VInt 3)] {[0 := mkFlow []]} =
      (Raise (TypeError msg), {[0 := mkFlow []]}).
Proof.
  apply (argument_given_twice_raises (context_with_flow 0) add_task
           [VInt 1; VInt 2] None [("y", VInt 3)] {[0 := mkFlow []]}
           1 (mkParameter "y" POSITIONAL_OR_KEYWORD false) (VInt 3)).
  - reflexivity.
  - simpl. lia.
  - reflexivity.
  - repeat constructor.
  - reflexivity.
Defined.
